(** * Enrollment dashboard: the aggregation layer of [app.py]

    A shallow embedding of the data pipeline of the Streamlit script
    [Enrollment Dashboards/app.py]: the loader [load_data], the year
    filter, and the derivations that feed the widgets and charts.  The
    pandas operations the script calls are modelled by executable
    functions over a small data-frame model; the statements of the script
    are then transcribed over that model, in the order of the script.

    Conventions of the model: a Python exception is a value of the error
    monad [Exc]; a float that is a ratio or a mean of integers is the
    exact rational; month names are the English ones; the text-to-date
    parser of pandas, which the repository does not contain, is a
    parameter ([DateParser]). *)

From Stdlib Require Import QArith.
From stdpp Require Import base decidable option list gmap strings sorting.

Local Open Scope string_scope.
Local Open Scope Z_scope.

(** ** Python exceptions and the error monad *)

Inductive PyErr : Type :=
  | FileNotFoundError
  | ParserError
  | KeyError (c : string)
  | AttributeError
  | TypeError
  | ZeroDivisionError.

Inductive Exc (A : Type) : Type :=
  | Ok (a : A)
  | Raise (e : PyErr).
Arguments Ok {A} a.
Arguments Raise {A} e.

#[global] Instance Exc_ret : MRet Exc := fun A a => Ok a.
#[global] Instance Exc_bind : MBind Exc := fun A B f m =>
  match m with
  | Ok a => f a
  | Raise e => Raise e
  end.

#[global] Instance Exc_fmap : FMap Exc := fun A B f m =>
  match m with
  | Ok a => Ok (f a)
  | Raise e => Raise e
  end.

Definition is_ok {A} (m : Exc A) : Prop :=
  match m with Ok _ => True | Raise _ => False end.

(** ** Cells, series and frames *)

(** A cell of a pandas column.  [NaN] is the missing value of object and
    float columns, [NaT] the missing value of a [datetime64] column; a
    timestamp is the number of nanoseconds since 1970-01-01 that
    [datetime64[ns]] stores.  Integer-valued numbers are [Int]. *)
Inductive value : Type :=
  | NaN
  | NaT
  | Str (s : string)
  | Int (z : Z)
  | Time (ns : Z).

#[global] Instance value_eq_dec : EqDecision value.
Proof. solve_decision. Defined.

Abbreviation Series := (list value).

(** A frame: the column labels, and the rows in index order, each row a
    map from column label to cell. *)
Record DataFrame : Type := mkDF {
  columns : list string;
  rows : list (gmap string value)
}.

#[global] Instance DataFrame_eq_dec : EqDecision DataFrame.
Proof. solve_decision. Defined.

Definition cell (r : gmap string value) (c : string) : value :=
  default NaN (r !! c).

(** [len(df)] *)
Definition len (df : DataFrame) : nat := length (rows df).

(** [df[c]]: the column, or [KeyError] when there is no such label. *)
Definition getitem (df : DataFrame) (c : string) : Exc Series :=
  if decide (c ∈ columns df)
  then Ok ((fun r => cell r c) <$> rows df)
  else Raise (KeyError c).

(** Keep the entries whose mask bit is set. *)
Fixpoint select {A} (mask : list bool) (l : list A) : list A :=
  match mask, l with
  | b :: mask', x :: l' => if b then x :: select mask' l' else select mask' l'
  | _, _ => []
  end.

(** [df[mask]]: boolean indexing; the result is a new frame. *)
Definition getitem_mask (df : DataFrame) (mask : list bool) : DataFrame :=
  mkDF (columns df) (select mask (rows df)).

(** [s == 'text'], element-wise; a missing cell compares unequal. *)
Definition eq_str (s : Series) (c : string) : list bool :=
  (fun v => bool_decide (v = Str c)) <$> s.

(** [s.isin(values)] *)
Definition isin (s : Series) (vs : list value) : list bool :=
  (fun v => bool_decide (v ∈ vs)) <$> s.

(** ** Filter (line 38) *)

Definition filtered_df (df : DataFrame) (selected_years : list value)
  : Exc DataFrame :=
  y ← getitem df "Entering Year";
  mret (getitem_mask df (isin y selected_years)).

(** ** Statistics (lines 47-50) *)

Definition total_inquiries (fdf : DataFrame) : Exc nat :=
  s ← getitem fdf "Candidate Status";
  mret (len (getitem_mask fdf (eq_str s "Inquiry"))).

Definition total_applications (fdf : DataFrame) : Exc nat :=
  s ← getitem fdf "Candidate Status";
  mret (len (getitem_mask fdf
    (isin s [Str "Applicant"; Str "File Complete"; Str "Decision"; Str "Contract"]))).

Definition total_accepted (fdf : DataFrame) : Exc nat :=
  s ← getitem fdf "Candidate Decision";
  mret (len (getitem_mask fdf (eq_str s "Accepted"))).

Definition total_contracts (fdf : DataFrame) : Exc nat :=
  s ← getitem fdf "Candidate Status";
  mret (len (getitem_mask fdf (eq_str s "Contract"))).

(** ** Rates (lines 84-85) *)

(** Python's [a / b] on two ints is true division and raises
    [ZeroDivisionError] when [b] is zero.  The quotient, a float in
    Python, is the exact rational here. *)
Definition truediv (a b : nat) : Exc Q :=
  if decide (b = 0%nat) then Raise ZeroDivisionError
  else Ok (inject_Z (Z.of_nat a) / inject_Z (Z.of_nat b))%Q.

Definition acceptance_rate (fdf : DataFrame) : Exc Q :=
  accepted ← total_accepted fdf;
  applications ← total_applications fdf;
  if decide (0 < applications)%nat
  then q ← truediv accepted applications; mret (q * 100)%Q
  else mret 0%Q.

Definition yield_rate (fdf : DataFrame) : Exc Q :=
  contracts ← total_contracts fdf;
  accepted ← total_accepted fdf;
  if decide (0 < accepted)%nat
  then q ← truediv contracts accepted; mret (q * 100)%Q
  else mret 0%Q.

(** ** Funnel (lines 106-107) *)

Definition stages : list string :=
  ["Inquiry"; "Applicant"; "File Complete"; "Decision"; "Contract"].

Definition stage_counts (fdf : DataFrame) : Exc (list nat) :=
  mapM (fun stage =>
          s ← getitem fdf "Candidate Status";
          mret (len (getitem_mask fdf (eq_str s stage))))
       stages.

(** ** Missing values, ordering of labels *)

Definition notna (v : value) : bool :=
  match v with NaN | NaT => false | _ => true end.

(** The order pandas sorts labels by: numbers by value, strings by code
    point.  Labels of different kinds do not occur together in one column
    of the dashboard's data; they are ranked by kind to keep the order
    total. *)
Definition kind_rank (v : value) : Z :=
  match v with NaN => 0 | NaT => 1 | Int _ => 2 | Time _ => 3 | Str _ => 4 end.

Definition value_leb (a b : value) : bool :=
  match a, b with
  | Int x, Int y => x <=? y
  | Time x, Time y => x <=? y
  | Str x, Str y => String.leb x y
  | _, _ => kind_rank a <=? kind_rank b
  end.

Definition value_le (a b : value) : Prop := value_leb a b.

#[global] Instance value_le_dec a b : Decision (value_le a b).
Proof. unfold value_le. apply _. Defined.

(** Sorted distinct present labels of a column: the keys of a [groupby],
    the labels of a cross-tabulation. *)
Definition sorted_labels (s : Series) : list value :=
  merge_sort value_le (remove_dups (filter (fun v => notna v) s)).

(** ** Counting by label *)

Definition count_of (v : value) (s : Series) : nat :=
  length (filter (fun x => x = v) s).

(** [s.value_counts().reset_index()]: one row per distinct present
    value with its number of occurrences, most frequent first.  Among
    equal counts the rows are kept here in order of first occurrence;
    nothing below depends on that order. *)
Definition count_ge (a b : value * nat) : Prop := (b.2 ≤ a.2)%nat.

#[global] Instance count_ge_dec a b : Decision (count_ge a b).
Proof. unfold count_ge. apply _. Defined.

Definition value_counts (s : Series) : list (value * nat) :=
  merge_sort count_ge
    ((fun k => (k, count_of k s)) <$> remove_dups (filter (fun v => notna v) s)).

Definition key_le {A} (a b : value * A) : Prop := value_le a.1 b.1.

#[global] Instance key_le_dec {A} (a b : value * A) : Decision (key_le a b).
Proof. unfold key_le. apply _. Defined.

(** [df.groupby(c).size().reset_index()] *)
Definition groupby_size (keys : Series) : list (value * nat) :=
  (fun k => (k, count_of k keys)) <$> sorted_labels keys.

(** [pd.Categorical(labels, categories=cats, ordered=True)] followed by
    [sort_values] on that column: rows are ordered by the position of
    their label in [cats]; labels outside [cats] become missing and go
    last. *)
Definition category_code (cats : list value) (v : value) : option nat :=
  fst <$> list_find (fun c => c = v) cats.

Definition code_le {A} (cats : list value) (ascending : bool)
  (a b : value * A) : Prop :=
  let code (p : value * A) := default 0%nat (category_code cats p.1) in
  if ascending then (code a ≤ code b)%nat else (code b ≤ code a)%nat.

#[global] Instance code_le_dec {A} cats asc (a b : value * A) :
  Decision (code_le cats asc a b).
Proof. unfold code_le. destruct asc; apply _. Defined.

Definition sort_by_category {A} (cats : list value) (ascending : bool)
  (t : list (value * A)) : list (value * A) :=
  let known := filter (fun p => is_Some (category_code cats p.1)) t in
  let unknown := filter (fun p => ¬ is_Some (category_code cats p.1)) t in
  merge_sort (code_le cats ascending) known
  ++ ((fun p => (NaN, p.2)) <$> unknown).

(** [pd.merge(left, right, on=key, how='left')] where [left] has the key
    column only: left order is kept, a left row without a match gets a
    missing count, a left row with several matches is repeated. *)
Definition merge_left (left : list value) (right : list (value * nat))
  : list (value * option nat) :=
  k ← left;
  match filter (fun p => p.1 = k) right with
  | [] => [(k, None)]
  | ms => (fun p => (k, Some p.2)) <$> ms
  end.

(** [.fillna(0).astype(int)] on the count column *)
Definition fillna0 (t : list (value * option nat)) : list (value * nat) :=
  (fun p => (p.1, default 0%nat p.2)) <$> t.

(** ** Year selection (lines 31-35) *)

(** [s.unique()]: the distinct values, in order of first occurrence. *)
Definition unique (s : list value) : list value :=
  reverse (remove_dups (reverse s)).

(** [l[-3:]]: the last three entries, all of them when there are fewer. *)
Definition last3 {A} (l : list A) : list A := drop (length l - 3) l.

(** The options of the multiselect: [sorted(df['Entering Year'].unique())].
    Python sorts by comparing the cells: integers by value, strings by
    code point, which is the order [value_le] on a column of one kind.
    The statements below are about columns of integer years. *)
Definition year_options (df : DataFrame) : Exc (list value) :=
  y ← getitem df "Entering Year";
  mret (merge_sort value_le (unique y)).

(** Its default: [sorted(df['Entering Year'].unique())[-3:]]. *)
Definition default_years (df : DataFrame) : Exc (list value) :=
  y ← getitem df "Entering Year";
  mret (last3 (merge_sort value_le (unique y))).

(** ** Dates *)

Definition ns_per_day : Z := 86400000000000.

Record civil : Type := mkCivil { c_year : Z; c_month : Z; c_day : Z }.

(** The proleptic Gregorian date of a day number counted from
    1970-01-01. *)
Definition civil_from_days (days : Z) : civil :=
  let z := days + 719468 in
  let era := z / 146097 in
  let doe := z mod 146097 in
  let yoe := (doe - doe / 1460 + doe / 36524 - doe / 146096) / 365 in
  let doy := doe - (365 * yoe + yoe / 4 - yoe / 100) in
  let mp := (5 * doy + 2) / 153 in
  let m := if mp <? 10 then mp + 3 else mp - 9 in
  let y := yoe + era * 400 in
  mkCivil (if m <=? 2 then y + 1 else y) m (doy - (153 * mp + 2) / 5 + 1).

Definition date_of (ns : Z) : civil := civil_from_days (ns / ns_per_day).

Definition month_names : list string :=
  ["January"; "February"; "March"; "April"; "May"; "June"; "July";
   "August"; "September"; "October"; "November"; "December"].

(** [strftime('%B')] *)
Definition strftime_B (ns : Z) : string :=
  default "" (month_names !! Z.to_nat (c_month (date_of ns) - 1)).

Definition digit (d : Z) : string :=
  String (Ascii.ascii_of_nat (48 + Z.to_nat (d mod 10))) "".

(** [strftime('%Y-%m')], for the four-digit years of [datetime64[ns]] *)
Definition strftime_Ym (ns : Z) : string :=
  let c := date_of ns in
  digit (c_year c / 1000) +:+ digit (c_year c / 100) +:+ digit (c_year c / 10)
  +:+ digit (c_year c) +:+ "-" +:+ digit (c_month c / 10) +:+ digit (c_month c).

Definition is_datetimelike (v : value) : bool :=
  match v with Time _ | NaT => true | _ => false end.

(** The [.dt] accessor exists on datetime columns only. *)
Definition dt (s : Series) : Exc Series :=
  if forallb is_datetimelike s then Ok s else Raise AttributeError.

Definition strftime (fmt : Z → string) (s : Series) : Series :=
  (fun v => match v with Time ns => Str (fmt ns) | _ => NaN end) <$> s.

(** The text-to-timestamp parser of pandas is not part of the
    repository.  [parse_inferred] is the parser of a plain
    [pd.to_datetime(column, errors='coerce')], which may depend on the
    column it is applied to (the format is guessed from the column);
    [parse_mixed] is the one of [format='mixed'], applied cell by cell.
    [None] is "cannot be parsed". *)
Record DateParser : Type := mkParser {
  parse_inferred : Series → string → option Z;
  parse_mixed : string → option Z
}.

(** [errors='coerce']: what cannot be parsed becomes [NaT]. *)
Definition coerce (p : string → option Z) (v : value) : value :=
  match v with
  | Str s => match p s with Some ns => Time ns | None => NaT end
  | Int z => Time z
  | Time ns => Time ns
  | NaN | NaT => NaT
  end.

Definition to_datetime (p : string → option Z) (s : Series) : Series :=
  coerce p <$> s.

(** [df[c] = s]: in place on [df]; a new label is appended, an existing
    one keeps its position.  The series comes from the same frame, so it
    is aligned with the rows. *)
Definition setitem (df : DataFrame) (c : string) (s : Series) : DataFrame :=
  mkDF (if decide (c ∈ columns df) then columns df else columns df ++ [c])
       (zip_with (fun r v => <[c:=v]> r) (rows df) s).

(** [df.copy()]: a new object with the same contents. *)
Definition copy (df : DataFrame) : DataFrame := df.

(** [a - b] on two datetime columns: the elapsed time in nanoseconds,
    missing where either side is; [TypeError] on other columns. *)
Definition sub_datetime (a b : Series) : Exc (list (option Z)) :=
  if forallb is_datetimelike a && forallb is_datetimelike b
  then Ok (zip_with (fun x y => match x, y with
                                 | Time p, Time q => Some (p - q)
                                 | _, _ => None
                                 end) a b)
  else Raise TypeError.

(** [.dt.days] of a timedelta column: the days component, rounded
    towards minus infinity; a float column, [NaN] where missing. *)
Definition dt_days (d : list (option Z)) : Series :=
  (fun o => match o with Some ns => Int (ns / ns_per_day) | None => NaN end) <$> d.

Definition numeric (v : value) : option Z :=
  match v with Int z => Some z | _ => None end.

Definition sumZ (l : list Z) : Z := foldr Z.add 0 l.

(** [Series.mean()] skips missing values; the mean of no value is NaN,
    written [None]. *)
Definition mean (xs : list Z) : option Q :=
  match xs with
  | [] => None
  | _ => Some (inject_Z (sumZ xs) / inject_Z (Z.of_nat (length xs)))%Q
  end.

(** The values of [vals] in the rows whose key is [k]. *)
Definition group_values (keys vals : Series) (k : value) : list Z :=
  omap (fun p => if decide (p.1 = k) then numeric p.2 else None) (zip keys vals).

(** [df.groupby(key)[val].mean().reset_index()]: one row per present
    key, in key order. *)
Definition groupby_mean (keys vals : Series) : list (value * option Q) :=
  (fun k => (k, mean (group_values keys vals k))) <$> sorted_labels keys.

(** ** Cross-tabulation (lines 128-129) *)

Record CrossTab : Type := mkCrossTab {
  ct_index : list value;
  ct_columns : list value;
  ct_data : list (list nat)
}.

Definition both_present (p : value * value) : Prop := notna p.1 ∧ notna p.2.

#[global] Instance both_present_dec p : Decision (both_present p).
Proof. unfold both_present. apply _. Defined.

(** [pd.crosstab(index, columns)] with its defaults: pairs with a
    missing side are dropped, labels are sorted, absent combinations are
    filled with 0. *)
Definition crosstab (index cols : Series) : CrossTab :=
  let pairs := filter both_present (zip index cols) in
  let rs := sorted_labels pairs.*1 in
  let cs := sorted_labels pairs.*2 in
  mkCrossTab rs cs
    ((fun g => (fun s => length (filter (fun p => p = (g, s)) pairs)) <$> cs) <$> rs).

Definition status_by_grade (fdf : DataFrame) : Exc CrossTab :=
  g ← getitem fdf "Entering Grade";
  s ← getitem fdf "Candidate Status";
  mret (crosstab g s).

(** The cell of a cross-tabulation at two labels, when both are there. *)
Definition ct_cell (t : CrossTab) (g s : value) : option nat :=
  i ← fst <$> list_find (fun x => x = g) (ct_index t);
  j ← fst <$> list_find (fun x => x = s) (ct_columns t);
  row ← ct_data t !! i;
  row !! j.

(** ** Inquiry distribution (lines 141-148 and 183-229) *)

Definition grade_order : list string :=
  ["Kindergarten"; "Grade 1"; "Grade 2"; "Grade 3"; "Grade 4";
   "Grade 5"; "Grade 6"; "Grade 7"; "Grade 8"; "Grade 9";
   "Grade 10"; "Grade 11"; "Grade 12"].

Definition grade_inquiries (fdf : DataFrame) : Exc (list (value * nat)) :=
  s ← getitem fdf "Candidate Status";
  g ← getitem (getitem_mask fdf (eq_str s "Inquiry")) "Entering Grade";
  mret (sort_by_category (Str <$> grade_order) true (value_counts g)).

Definition month_order : list string :=
  ["August"; "September"; "October"; "November"; "December";
   "January"; "February"; "March"; "April"; "May"; "June"; "July"].

Definition monthly_inquiries (P : DateParser) (fdf : DataFrame)
  : Exc (list (value * nat)) :=
  s ← getitem fdf "Candidate Status";
  let inquiries_df := copy (getitem_mask fdf (eq_str s "Inquiry")) in
  d ← getitem inquiries_df "Inquiry Date Submitted";
  let inquiries_df := setitem inquiries_df "Inquiry_Date"
                        (to_datetime (parse_mixed P) d) in
  d ← getitem inquiries_df "Inquiry_Date";
  d ← dt d;
  let inquiries_df := setitem inquiries_df "Month" (strftime strftime_B d) in
  m ← getitem inquiries_df "Month";
  let monthly_counts := value_counts m in
  let all_months := Str <$> month_order in
  let merged := fillna0 (merge_left all_months monthly_counts) in
  mret (sort_by_category (Str <$> month_order) false merged).

(** ** The count axis of the month chart (line 256) *)



(** ** Demographics (lines 270-285) *)

Definition gender_dist (fdf : DataFrame) : Exc (list (value * nat)) :=
  value_counts <$> getitem fdf "Gender".

Definition intl_dist (fdf : DataFrame) : Exc (list (value * nat)) :=
  value_counts <$> getitem fdf "International".

Definition fa_dist (fdf : DataFrame) : Exc (list (value * nat)) :=
  value_counts <$> getitem fdf "Financial Aid".

(** ** Timeline (lines 293-312)

    Both blocks assign a column of [filtered_df]; they return the frame
    as the assignment leaves it, next to the table they compute. *)

Definition monthly_apps (fdf : DataFrame)
  : Exc (DataFrame * option (list (value * nat))) :=
  if decide ("Application Date Submitted" ∈ columns fdf) then
    a ← getitem fdf "Application Date Submitted";
    a ← dt a;
    let fdf := setitem fdf "Application Month" (strftime strftime_Ym a) in
    m ← getitem fdf "Application Month";
    mret (fdf, Some (merge_sort key_le (groupby_size m)))
  else mret (fdf, None).

Definition avg_decision_time (fdf : DataFrame)
  : Exc (DataFrame * list (value * option Q)) :=
  d ← getitem fdf "School Decision Date";
  a ← getitem fdf "Application Date Submitted";
  delta ← sub_datetime d a;
  let fdf := setitem fdf "Days_to_Decision" (dt_days delta) in
  y ← getitem fdf "Entering Year";
  v ← getitem fdf "Days_to_Decision";
  mret (fdf, groupby_mean y v).

(** ** Loader (lines 12-23) *)

(** What [pd.read_csv] finds at a path: nothing, a file it cannot read
    as a table, or a table.  Tokenising and column typing are pandas'. *)
Inductive File : Type :=
  | Unreadable
  | Table (t : DataFrame).

Definition read_csv (fs : gmap string File) (path : string) : Exc DataFrame :=
  match fs !! path with
  | None => Raise FileNotFoundError
  | Some Unreadable => Raise ParserError
  | Some (Table t) => Ok t
  end.

(** A [for] loop whose body updates the state and may raise. *)
Fixpoint for_each {A S} (l : list A) (body : S → A → Exc S) (s : S) : Exc S :=
  match l with
  | [] => Ok s
  | x :: l' => s' ← body s x; for_each l' body s'
  end.

Definition date_columns : list string :=
  ["Inquiry Date Submitted"; "Application Date Submitted";
   "Candidate decision date"; "School Decision Date"].

(** The body of the loop: [df[col] = pd.to_datetime(df[col],
    errors='coerce')]. *)
Definition convert_column (P : DateParser) (df : DataFrame) (col : string)
  : Exc DataFrame :=
  s ← getitem df col;
  mret (setitem df col (to_datetime (parse_inferred P s) s)).

Definition load_data (P : DateParser) (fs : gmap string File) : Exc DataFrame :=
  df ← read_csv fs "data/enrollment.csv";
  for_each date_columns (convert_column P) df.

(** ** The script, with its objects

    The frames the script names live in a store; a name holds the
    position of its object.  Boolean indexing and [load_data] make new
    objects, a column assignment changes the object it is applied to. *)

Definition Py (A : Type) : Type := list DataFrame → Exc (A * list DataFrame).

#[global] Instance Py_ret : MRet Py := fun A a h => Ok (a, h).
#[global] Instance Py_bind : MBind Py := fun A B f m h =>
  match m h with
  | Ok (a, h') => f a h'
  | Raise e => Raise e
  end.

Definition new (d : DataFrame) : Py nat :=
  fun h => Ok (length h, (h ++ [d])%list).

Definition deref (l : nat) : Py DataFrame :=
  fun h => Ok (default (mkDF [] []) (h !! l), h).

Definition assign (l : nat) (d : DataFrame) : Py unit :=
  fun h => Ok ((), <[l:=d]> h).

Definition lift {A} (m : Exc A) : Py A := fun h =>
  match m with
  | Ok a => Ok (a, h)
  | Raise e => Raise e
  end.

(** Everything the script hands to a widget or a chart. *)
Record Dashboard : Type := mkDashboard {
  d_total_inquiries : nat;
  d_total_applications : nat;
  d_total_accepted : nat;
  d_total_contracts : nat;
  d_acceptance_rate : Q;
  d_yield_rate : Q;
  d_stage_counts : list nat;
  d_status_by_grade : CrossTab;
  d_grade_inquiries : list (value * nat);
  d_monthly_inquiries : list (value * nat);
  d_gender_dist : list (value * nat);
  d_intl_dist : list (value * nat);
  d_fa_dist : list (value * nat);
  d_monthly_apps : option (list (value * nat));
  d_avg_decision_time : list (value * option Q);
  d_download : DataFrame
}.

(** Lines 25-328.  [selected_years] is what the multiselect returns.
    The result names the objects of [df] and [filtered_df]. *)
Definition script (P : DateParser) (fs : gmap string File)
  (selected_years : list value) : Py (nat * nat * Dashboard) :=
  d ← lift (load_data P fs);
  df ← new d;
  d ← deref df;
  f ← lift (filtered_df d selected_years);
  filtered ← new f;
  f ← deref filtered;
  inquiries ← lift (total_inquiries f);
  applications ← lift (total_applications f);
  accepted ← lift (total_accepted f);
  contracts ← lift (total_contracts f);
  acceptance ← lift (acceptance_rate f);
  yield ← lift (yield_rate f);
  funnel ← lift (stage_counts f);
  by_grade ← lift (status_by_grade f);
  grades ← lift (grade_inquiries f);
  months ← lift (monthly_inquiries P f);
  gender ← lift (gender_dist f);
  intl ← lift (intl_dist f);
  fa ← lift (fa_dist f);
  f ← deref filtered;
  '(f', apps) ← lift (monthly_apps f);
  assign filtered f';;
  f ← deref filtered;
  '(f', avg) ← lift (avg_decision_time f);
  assign filtered f';;
  f ← deref filtered;
  mret (df, filtered,
        mkDashboard inquiries applications accepted contracts acceptance yield
          funnel by_grade grades months gender intl fa apps avg f).

(** ** Row-level reading of the frames, for the statements *)

Definition status (r : gmap string value) : value := cell r "Candidate Status".
Definition decision (r : gmap string value) : value := cell r "Candidate Decision".
Definition year (r : gmap string value) : value := cell r "Entering Year".

(** Number of rows of a frame that satisfy [P]. *)
Definition count_rows (P : gmap string value → Prop) `{!∀ r, Decision (P r)}
  (df : DataFrame) : nat :=
  length (filter P (rows df)).

(** The statuses [total_applications] counts. *)
Definition applied_statuses : list value :=
  [Str "Applicant"; Str "File Complete"; Str "Decision"; Str "Contract"].

Definition grade (r : gmap string value) : value := cell r "Entering Grade".

(** The columns of the candidate record. *)
Definition candidate_columns : list string :=
  ["Entering Year"; "Entering Grade"; "Candidate Status"; "Candidate Decision";
   "Gender"; "International"; "Financial Aid";
   "Inquiry Date Submitted"; "Application Date Submitted";
   "Candidate decision date"; "School Decision Date"].

(** The inquiry month of a row: the month name of its inquiry date when
    that date is present or can be parsed. *)
Definition inquiry_month (P : DateParser) (r : gmap string value) : option string :=
  match coerce (parse_mixed P) (cell r "Inquiry Date Submitted") with
  | Time ns => Some (strftime_B ns)
  | _ => None
  end.



(** Column [c] of [t], and what [to_datetime] makes of it. *)
Definition column (t : DataFrame) (c : string) : list value :=
  (fun r => cell r c) <$> rows t.

Definition coerce_column (P : DateParser) (t : DataFrame) (c : string) : list value :=
  to_datetime (parse_inferred P (column t c)) (column t c).

(** The date columns hold timestamps or [NaT], as [load_data] leaves
    them. *)
Definition datetime_column (df : DataFrame) (c : string) : Prop :=
  Forall (fun r => is_datetimelike (cell r c)) (rows df).

Definition is_int (v : value) : bool :=
  match v with Int _ => true | _ => false end.

(** Every cell of column [c] is an integer. *)
Definition int_column (df : DataFrame) (c : string) : Prop :=
  Forall (fun r => is_int (cell r c)) (rows df).

(** A frequency table of column [c] of [df]: one row per present value,
    each once, with the number of rows holding it, most frequent first,
    the counts adding up to the rows with a present value. *)
Definition frequency_table (df : DataFrame) (c : string) (t : list (value * nat))
  : Prop :=
  NoDup t.*1
  ∧ (∀ k n, (k, n) ∈ t ↔
       notna k ∧ (0 < n)%nat ∧ n = count_rows (fun r => cell r c = k) df)
  ∧ StronglySorted count_ge t
  ∧ sum_list t.*2 = count_rows (fun r => notna (cell r c)) df.

(** The application month of a row, as [strftime('%Y-%m')] writes it,
    when the application date is present. *)
Definition application_month (r : gmap string value) : option string :=
  match cell r "Application Date Submitted" with
  | Time ns => Some (strftime_Ym ns)
  | _ => None
  end.

(** A computation that reads the columns [req] of a table with the
    columns [cols]: it returns when all of them are there, and raises
    [KeyError] on one that is missing otherwise. *)
Definition needs {A} (req cols : list string) (m : Exc A) : Prop :=
  if decide (req ⊆ cols) then is_ok m
  else (∃ c, c ∈ req ∧ (c ∉ cols) ∧ m = Raise (KeyError c)).

(** ** Sample data *)

Definition candidate (y : Z) (g s d : value) (inq app sch : value)
  : gmap string value :=
  list_to_map
    [("Entering Year", Int y); ("Entering Grade", g); ("Candidate Status", s);
     ("Candidate Decision", d); ("Gender", NaN); ("International", NaN);
     ("Financial Aid", NaN); ("Inquiry Date Submitted", inq);
     ("Application Date Submitted", app); ("Candidate decision date", NaT);
     ("School Decision Date", sch)].

(** 2023-01-15 and 2023-01-25, at midnight. *)
Definition jan15 : Z := 1673740800000000000.
Definition jan25 : Z := 1674604800000000000.

(** The three rows of the specification's example. *)
Definition three_rows : DataFrame :=
  mkDF candidate_columns
    [candidate 2023 NaN (Str "Inquiry") NaN NaT NaT NaT;
     candidate 2023 NaN (Str "Contract") (Str "Accepted") NaT NaT NaT;
     candidate 2022 NaN (Str "Inquiry") NaN NaT NaT NaT].

Definition three_rows_2023 : DataFrame :=
  mkDF candidate_columns
    [candidate 2023 NaN (Str "Inquiry") NaN NaT NaT NaT;
     candidate 2023 NaN (Str "Contract") (Str "Accepted") NaT NaT NaT].

(** Two accepted inquiries and one applicant. *)
Definition over_accepted : DataFrame :=
  mkDF candidate_columns
    [candidate 2023 NaN (Str "Inquiry") (Str "Accepted") NaT NaT NaT;
     candidate 2023 NaN (Str "Inquiry") (Str "Accepted") NaT NaT NaT;
     candidate 2023 NaN (Str "Applicant") NaN NaT NaT NaT].

(** Four inquiries, two dated in January 2023 and two without a date,
    and an applicant. *)
Definition inquiry_sample : DataFrame :=
  mkDF candidate_columns
    [candidate 2023 (Str "Grade 1") (Str "Inquiry") NaN (Time jan15) NaT NaT;
     candidate 2023 (Str "Grade 1") (Str "Inquiry") NaN (Time jan25) NaT NaT;
     candidate 2023 (Str "Grade 2") (Str "Inquiry") NaN NaT NaT NaT;
     candidate 2023 NaN (Str "Inquiry") NaN NaT NaT NaT;
     candidate 2023 (Str "Grade 2") (Str "Applicant") NaN
       (Time jan15) (Time jan15) (Time jan25)].

(** Year 2022 with one dated application decided after 10 days, year
    2023 with an application that has no decision date, year 2024 with a
    decision dated 10 days before the application. *)
Definition latency_sample : DataFrame :=
  mkDF candidate_columns
    [candidate 2022 NaN (Str "Decision") NaN NaT (Time jan15) (Time jan25);
     candidate 2023 NaN (Str "Applicant") NaN NaT (Time jan15) NaT;
     candidate 2024 NaN (Str "Decision") NaN NaT (Time jan25) (Time jan15)].

(** Two inquiries in grade 1, an applicant in grade 2, a row of grade 3
    without a status and a contract without a grade. *)
Definition grade_sample : DataFrame :=
  mkDF candidate_columns
    [candidate 2023 (Str "Grade 1") (Str "Inquiry") NaN NaT NaT NaT;
     candidate 2023 (Str "Grade 1") (Str "Inquiry") NaN NaT NaT NaT;
     candidate 2023 (Str "Grade 2") (Str "Applicant") NaN NaT NaT NaT;
     candidate 2023 (Str "Grade 3") NaN NaN NaT NaT NaT;
     candidate 2023 NaN (Str "Contract") NaN NaT NaT NaT].

(** A data file as [read_csv] returns it, dates still text: one date
    the sample parser reads, one it does not, the others missing. *)
Definition enrollment_csv : DataFrame :=
  mkDF candidate_columns
    [candidate 2023 (Str "Grade 1") (Str "Inquiry") NaN (Str "2023-01-15") NaN NaN;
     candidate 2023 (Str "Grade 2") (Str "Contract") (Str "Accepted")
       (Str "soon") (Str "2023-01-15") (Str "2023-01-15");
     candidate 2022 (Str "Grade 1") (Str "Inquiry") NaN NaN NaN NaN].

(** A data file that has the four date columns and nothing else. *)
Definition dates_only_csv : DataFrame :=
  mkDF date_columns
    [list_to_map
       [("Inquiry Date Submitted", Str "2023-01-15");
        ("Application Date Submitted", Str "soon");
        ("Candidate decision date", NaN);
        ("School Decision Date", NaN)]].

Definition enrollment_fs : gmap string File :=
  {[ "data/enrollment.csv" := Table enrollment_csv ]}.

Definition dates_only_fs : gmap string File :=
  {[ "data/enrollment.csv" := Table dates_only_csv ]}.

(** A parser that reads one spelling of one date. *)
Definition one_date_parser : DateParser :=
  mkParser (fun _ s => if decide (s = "2023-01-15") then Some jan15 else None)
           (fun s => if decide (s = "2023-01-15") then Some jan15 else None).

(** The sample file as [load_data] returns it, and its rows of 2023. *)
Definition enrollment_loaded : DataFrame :=
  mkDF candidate_columns
    [candidate 2023 (Str "Grade 1") (Str "Inquiry") NaN (Time jan15) NaT NaT;
     candidate 2023 (Str "Grade 2") (Str "Contract") (Str "Accepted")
       NaT (Time jan15) (Time jan15);
     candidate 2022 (Str "Grade 1") (Str "Inquiry") NaN NaT NaT NaT].

Definition enrollment_2023 : DataFrame :=
  mkDF candidate_columns
    [candidate 2023 (Str "Grade 1") (Str "Inquiry") NaN (Time jan15) NaT NaT;
     candidate 2023 (Str "Grade 2") (Str "Contract") (Str "Accepted")
       NaT (Time jan15) (Time jan15)].

(** Rows of five entering years, not in order, 2023 twice. *)
Definition five_years : DataFrame :=
  mkDF candidate_columns
    [candidate 2021 NaN (Str "Inquiry") NaN NaT NaT NaT;
     candidate 2023 NaN (Str "Applicant") NaN NaT NaT NaT;
     candidate 2019 NaN (Str "Inquiry") NaN NaT NaT NaT;
     candidate 2023 NaN (Str "Contract") (Str "Accepted") NaT NaT NaT;
     candidate 2020 NaN (Str "Decision") NaN NaT NaT NaT;
     candidate 2022 NaN (Str "Inquiry") NaN NaT NaT NaT].

(** Rows with three genders, one of them missing. *)
Definition gender_sample : DataFrame :=
  mkDF candidate_columns
    [<["Gender" := Str "F"]> (candidate 2023 NaN (Str "Inquiry") NaN NaT NaT NaT);
     <["Gender" := Str "M"]> (candidate 2023 NaN (Str "Inquiry") NaN NaT NaT NaT);
     <["Gender" := Str "F"]> (candidate 2023 NaN (Str "Applicant") NaN NaT NaT NaT);
     candidate 2023 NaN (Str "Inquiry") NaN NaT NaT NaT].

(** Inquiries in grades 2, 1 and 2 again, one in a grade outside the
    canonical list, one without a grade, and an applicant in grade 1. *)
Definition grade_inquiry_sample : DataFrame :=
  mkDF candidate_columns
    [candidate 2023 (Str "Grade 2") (Str "Inquiry") NaN NaT NaT NaT;
     candidate 2023 (Str "Grade 1") (Str "Inquiry") NaN NaT NaT NaT;
     candidate 2023 (Str "Grade 2") (Str "Inquiry") NaN NaT NaT NaT;
     candidate 2023 (Str "Pre-K") (Str "Inquiry") NaN NaT NaT NaT;
     candidate 2023 NaN (Str "Inquiry") NaN NaT NaT NaT;
     candidate 2023 (Str "Grade 1") (Str "Applicant") NaN NaT NaT NaT].

(** 2022-11-03, 2022-11-20 and 2023-02-01, at midnight. *)
Definition nov03 : Z := 1667433600000000000.
Definition nov20 : Z := 1668902400000000000.
Definition feb01 : Z := 1675209600000000000.

(** Applications in January 2023, November 2022 twice and February
    2023, in that order, and an inquiry without an application date. *)
Definition timeline_sample : DataFrame :=
  mkDF candidate_columns
    [candidate 2023 NaN (Str "Applicant") NaN NaT (Time jan15) (Time feb01);
     candidate 2023 NaN (Str "Applicant") NaN NaT (Time nov03) (Time nov20);
     candidate 2023 NaN (Str "Inquiry") NaN NaT NaT NaT;
     candidate 2022 NaN (Str "Decision") NaN NaT (Time nov20) (Time nov03);
     candidate 2022 NaN (Str "Applicant") NaN NaT (Time feb01) NaT].

(** A parser that reads every text as 2023-01-25. *)
Definition lenient_parser : DateParser :=
  mkParser (fun _ _ => Some jan25) (fun _ => Some jan25).

(** ** A check of the calendar arithmetic

    The month [civil_from_days] computes depends on the day of the
    400-year era only; [months_ok] tests that it is a month number on a
    run of such days. *)
Definition month_of_doe (doe : Z) : Z :=
  let yoe := (doe - doe / 1460 + doe / 36524 - doe / 146096) / 365 in
  let doy := doe - (365 * yoe + yoe / 4 - yoe / 100) in
  let mp := (5 * doy + 2) / 153 in
  if mp <? 10 then mp + 3 else mp - 9.

Definition month_ok (doe : Z) : bool :=
  let m := month_of_doe doe in (1 <=? m) && (m <=? 12).

Fixpoint months_ok (p : positive) (doe : Z) : bool :=
  match p with
  | xH => month_ok doe
  | xO p' => months_ok p' doe && months_ok p' (doe + Z.pos p')
  | xI p' => month_ok doe && months_ok p' (doe + 1)
             && months_ok p' (doe + 1 + Z.pos p')
  end.

(** ** A check that months follow each other

    [month_index] numbers the months of the calendar, twelve to a year.
    [ym_of_doe] is the month number [civil_from_days] computes for a day
    of the 400-year era, the years counted within the era; [all_days]
    tests a property on a run of such days. *)
Definition month_index (c : civil) : Z := 12 * c_year c + c_month c.

Definition ym_of_doe (doe : Z) : Z :=
  let yoe := (doe - doe / 1460 + doe / 36524 - doe / 146096) / 365 in
  let doy := doe - (365 * yoe + yoe / 4 - yoe / 100) in
  let mp := (5 * doy + 2) / 153 in
  let m := if mp <? 10 then mp + 3 else mp - 9 in
  12 * (if m <=? 2 then yoe + 1 else yoe) + m.

Definition ym_step_ok (doe : Z) : bool := ym_of_doe doe <=? ym_of_doe (doe + 1).

Fixpoint all_days (f : Z → bool) (p : positive) (doe : Z) : bool :=
  match p with
  | xH => f doe
  | xO p' => all_days f p' doe && all_days f p' (doe + Z.pos p')
  | xI p' => f doe && all_days f p' (doe + 1)
             && all_days f p' (doe + 1 + Z.pos p')
  end.

(** The timestamps [datetime64[ns]] can hold: 64-bit counts of
    nanoseconds, the least one standing for NaT. *)
Definition in_datetime64 (ns : Z) : Prop :=
  -9223372036854775808 < ns < 9223372036854775808.

(** The text [strftime('%Y-%m')] writes for a year and a month. *)
Definition format_Ym (y m : Z) : string :=
  digit (y / 1000) +:+ digit (y / 100) +:+ digit (y / 10)
  +:+ digit y +:+ "-" +:+ digit (m / 10) +:+ digit m.

(** * Lemmas on the frame model *)

Lemma getitem_ok df c :
  c ∈ columns df → getitem df c = Ok ((fun r => cell r c) <$> rows df).
Proof. intros H. unfold getitem. by rewrite decide_True. Qed.

Lemma getitem_KeyError df c :
  c ∉ columns df → getitem df c = Raise (KeyError c).
Proof. intros H. unfold getitem. by rewrite decide_False. Qed.

Lemma select_map_filter {A} (P : A → Prop) `{!∀ x, Decision (P x)} (l : list A) :
  select ((fun x => bool_decide (P x)) <$> l) l = filter P l.
Proof.
  induction l as [|x l IH]; [done|].
  cbn [fmap list_fmap select]. rewrite IH, filter_cons.
  destruct (decide (P x)); [by rewrite bool_decide_eq_true_2 | by rewrite bool_decide_eq_false_2].
Qed.

Lemma mask_eq_str df c s :
  select (eq_str ((fun r => cell r c) <$> rows df) s) (rows df)
  = filter (fun r => cell r c = Str s) (rows df).
Proof.
  unfold eq_str. rewrite <- list_fmap_compose.
  apply (select_map_filter (fun r => cell r c = Str s)).
Qed.

Lemma mask_isin df c vs :
  select (isin ((fun r => cell r c) <$> rows df) vs) (rows df)
  = filter (fun r => cell r c ∈ vs) (rows df).
Proof.
  unfold isin. rewrite <- list_fmap_compose.
  apply (select_map_filter (fun r => cell r c ∈ vs)).
Qed.

Lemma cell_insert_same (r : gmap string value) c v : cell (<[c:=v]> r) c = v.
Proof. unfold cell. by rewrite lookup_insert_eq. Qed.

Lemma cell_insert_other (r : gmap string value) c c' v :
  c ≠ c' → cell (<[c:=v]> r) c' = cell r c'.
Proof. intros H. unfold cell. by rewrite lookup_insert_ne. Qed.

Lemma column_setitem_same (l : list (gmap string value)) c (s : Series) :
  length s = length l →
  (fun r => cell r c) <$> zip_with (fun r v => <[c:=v]> r) l s = s.
Proof.
  revert s. induction l as [|r l IH]; intros [|v s] Hlen; try done.
  cbn [zip_with fmap list_fmap]. rewrite cell_insert_same.
  f_equal. apply IH. by injection Hlen.
Qed.

Lemma column_setitem_other (l : list (gmap string value)) c c' (s : Series) :
  c ≠ c' → length s = length l →
  (fun r => cell r c') <$> zip_with (fun r v => <[c:=v]> r) l s
  = (fun r => cell r c') <$> l.
Proof.
  intros Hne. revert s. induction l as [|r l IH]; intros [|v s] Hlen; try done.
  cbn [zip_with fmap list_fmap]. rewrite (cell_insert_other _ _ _ _ Hne).
  f_equal. apply IH. by injection Hlen.
Qed.

Lemma setitem_has_column df c s : c ∈ columns (setitem df c s).
Proof.
  unfold setitem. cbn [columns].
  destruct (decide (c ∈ columns df)); [done|].
  apply elem_of_app. right. constructor.
Qed.

Lemma setitem_columns_other df c c' s :
  c ≠ c' → c' ∈ columns (setitem df c s) ↔ c' ∈ columns df.
Proof.
  intros Hne. unfold setitem. cbn [columns].
  destruct (decide (c ∈ columns df)); [done|].
  rewrite elem_of_app, list_elem_of_singleton.
  split; [intros [?|?]; [done|congruence] | by left].
Qed.

Lemma getitem_setitem_same df c s :
  length s = length (rows df) → getitem (setitem df c s) c = Ok s.
Proof.
  intros Hlen. rewrite (getitem_ok _ _ (setitem_has_column df c s)).
  unfold setitem. cbn [rows]. by rewrite column_setitem_same.
Qed.

Lemma getitem_setitem_other df c c' s :
  c ≠ c' → length s = length (rows df) →
  getitem (setitem df c s) c' = getitem df c'.
Proof.
  intros Hne Hlen. unfold getitem.
  destruct (decide (c' ∈ columns df)) as [Hin|Hin].
  - rewrite decide_True by (by apply setitem_columns_other).
    unfold setitem. cbn [rows]. by rewrite column_setitem_other.
  - rewrite decide_False; [done|]. by rewrite setitem_columns_other.
Qed.

Lemma setitem_rows_length df c s :
  length s = length (rows df) → length (rows (setitem df c s)) = length (rows df).
Proof. intros H. unfold setitem. cbn [rows]. rewrite length_zip_with. lia. Qed.

Lemma to_datetime_datetimelike p s : forallb is_datetimelike (to_datetime p s) = true.
Proof.
  induction s as [|v s IH]; [done|].
  cbn [to_datetime fmap list_fmap forallb]. fold (to_datetime p s). rewrite IH.
  destruct v; cbn [coerce]; try done. by destruct (p s0).
Qed.

Lemma dt_to_datetime p s : dt (to_datetime p s) = Ok (to_datetime p s).
Proof. unfold dt. by rewrite to_datetime_datetimelike. Qed.

Lemma filtered_df_ok df selected_years :
  "Entering Year" ∈ columns df →
  filtered_df df selected_years
  = Ok (mkDF (columns df) (filter (fun r => year r ∈ selected_years) (rows df))).
Proof.
  intros Hy. unfold filtered_df. rewrite (getitem_ok _ _ Hy).
  cbn [mbind Exc_bind mret Exc_ret]. unfold getitem_mask, year.
  by rewrite mask_isin.
Qed.

(** * Month names *)

Lemma months_ok_spec p doe k :
  months_ok p doe = true → doe ≤ k < doe + Z.pos p → month_ok k = true.
Proof.
  revert doe. induction p as [p IH|p IH|]; intros doe Hc Hk; cbn [months_ok] in Hc.
  - apply andb_prop in Hc as [Hc H3]. apply andb_prop in Hc as [H1 H2].
    destruct (decide (k = doe)) as [->|?]; [done|].
    destruct (decide (k < doe + 1 + Z.pos p)).
    + apply (IH (doe + 1)); [done|lia].
    + apply (IH (doe + 1 + Z.pos p)); [done|lia].
  - apply andb_prop in Hc as [H1 H2].
    destruct (decide (k < doe + Z.pos p)).
    + apply (IH doe); [done|lia].
    + apply (IH (doe + Z.pos p)); [done|lia].
  - by replace k with doe by lia.
Qed.

Lemma era_months : months_ok 146097 0 = true.
Proof. vm_compute. reflexivity. Qed.

Lemma c_month_range days : 1 ≤ c_month (civil_from_days days) ≤ 12.
Proof.
  unfold civil_from_days. cbn [c_month].
  pose proof (Z.mod_pos_bound (days + 719468) 146097 eq_refl) as Hb.
  pose proof (months_ok_spec 146097 0 _ era_months Hb) as Hm.
  unfold month_ok, month_of_doe in Hm. cbn zeta in Hm. lia.
Qed.

Lemma strftime_B_month_order ns : strftime_B ns ∈ month_order.
Proof.
  unfold strftime_B. pose proof (c_month_range (ns / ns_per_day)) as H.
  fold (date_of ns) in H.
  assert (∃ n, c_month (date_of ns) = Z.of_nat (S n) ∧ (n < 12)%nat) as (n & -> & Hn).
  { exists (Z.to_nat (c_month (date_of ns) - 1)). lia. }
  replace (Z.to_nat (Z.of_nat (S n) - 1)) with n by lia.
  do 12 (destruct n as [|n]; [compute_done|]). lia.
Qed.

(** * The statistics *)

Lemma total_inquiries_ok fdf :
  "Candidate Status" ∈ columns fdf →
  total_inquiries fdf = Ok (count_rows (fun r => status r = Str "Inquiry") fdf).
Proof.
  intros Hs. unfold total_inquiries. rewrite (getitem_ok _ _ Hs).
  cbn [mbind Exc_bind mret Exc_ret]. unfold len, getitem_mask, count_rows, status.
  cbn [rows]. by rewrite mask_eq_str.
Qed.

Lemma total_applications_ok fdf :
  "Candidate Status" ∈ columns fdf →
  total_applications fdf
  = Ok (count_rows (fun r => status r ∈ applied_statuses) fdf).
Proof.
  intros Hs. unfold total_applications. rewrite (getitem_ok _ _ Hs).
  cbn [mbind Exc_bind mret Exc_ret]. unfold len, getitem_mask, count_rows, status.
  cbn [rows]. by rewrite mask_isin.
Qed.

Lemma total_contracts_ok fdf :
  "Candidate Status" ∈ columns fdf →
  total_contracts fdf = Ok (count_rows (fun r => status r = Str "Contract") fdf).
Proof.
  intros Hs. unfold total_contracts. rewrite (getitem_ok _ _ Hs).
  cbn [mbind Exc_bind mret Exc_ret]. unfold len, getitem_mask, count_rows, status.
  cbn [rows]. by rewrite mask_eq_str.
Qed.

Lemma total_accepted_ok fdf :
  "Candidate Decision" ∈ columns fdf →
  total_accepted fdf = Ok (count_rows (fun r => decision r = Str "Accepted") fdf).
Proof.
  intros Hd. unfold total_accepted. rewrite (getitem_ok _ _ Hd).
  cbn [mbind Exc_bind mret Exc_ret]. unfold len, getitem_mask, count_rows, decision.
  cbn [rows]. by rewrite mask_eq_str.
Qed.

Lemma three_rows_filter :
  filtered_df three_rows [Int 2023] = Ok three_rows_2023.
Proof. reflexivity. Qed.

(** C1: on every filtered table that has the two columns, the four
    statistics are the row counts the specification names: inquiries are
    the rows with status Inquiry, applications the rows with status
    Applicant, File Complete, Decision or Contract, contracts the rows
    with status Contract, and accepted the rows with decision Accepted,
    whatever their status.  On the three-row example filtered to 2023
    each of the four is 1. *)
Theorem rollup_statistics :
  (∀ fdf : DataFrame,
     "Candidate Status" ∈ columns fdf →
     "Candidate Decision" ∈ columns fdf →
     total_inquiries fdf = Ok (count_rows (fun r => status r = Str "Inquiry") fdf)
     ∧ total_applications fdf
       = Ok (count_rows (fun r => status r ∈
               [Str "Applicant"; Str "File Complete"; Str "Decision"; Str "Contract"]) fdf)
     ∧ total_contracts fdf = Ok (count_rows (fun r => status r = Str "Contract") fdf)
     ∧ total_accepted fdf = Ok (count_rows (fun r => decision r = Str "Accepted") fdf))
  ∧ (∃ f, filtered_df three_rows [Int 2023] = Ok f
          ∧ total_inquiries f = Ok 1%nat
          ∧ total_applications f = Ok 1%nat
          ∧ total_accepted f = Ok 1%nat
          ∧ total_contracts f = Ok 1%nat).
Proof.
  split.
  - intros fdf Hs Hd.
    by rewrite total_inquiries_ok, total_applications_ok, total_contracts_ok,
      total_accepted_ok.
  - exists three_rows_2023. by vm_compute.
Qed.

Lemma rollup_statistics_witness :
  "Candidate Status" ∈ columns three_rows_2023
  ∧ "Candidate Decision" ∈ columns three_rows_2023
  ∧ total_inquiries three_rows_2023 = Ok 1%nat
  ∧ total_applications three_rows_2023 = Ok 1%nat
  ∧ total_contracts three_rows_2023 = Ok 1%nat
  ∧ total_accepted three_rows_2023 = Ok 1%nat.
Proof.
  assert (Hs : "Candidate Status" ∈ columns three_rows_2023) by compute_done.
  assert (Hd : "Candidate Decision" ∈ columns three_rows_2023) by compute_done.
  split; [exact Hs|]. split; [exact Hd|].
  exact (proj1 rollup_statistics three_rows_2023 Hs Hd).
Defined.

(** * The rates *)

Lemma ratio_times_100 (a b : nat) :
  (0 < b)%nat →
  (inject_Z (Z.of_nat a) / inject_Z (Z.of_nat b) * 100 ==
   (Z.of_nat a * 100) # Pos.of_nat b)%Q.
Proof.
  intros Hb.
  rewrite (Qmake_Qdiv (Z.of_nat a * 100) (Pos.of_nat b)).
  replace (Z.pos (Pos.of_nat b)) with (Z.of_nat b)
    by (rewrite <- positive_nat_Z, Nat2Pos.id; [done | lia]).
  rewrite inject_Z_mult. field.
  intros H. apply (inject_Z_injective (Z.of_nat b) 0) in H. lia.
Qed.



(** Two accepted inquiries and one applicant: the acceptance rate is
    200, above 100. *)
Lemma acceptance_rate_above_100 :
  ∃ a, acceptance_rate over_accepted = Ok a ∧ (a == 200)%Q ∧ (100 < a)%Q.
Proof. eexists. split; [reflexivity|]. split; reflexivity. Qed.

(** * The funnel *)

Lemma stage_counts_ok fdf :
  "Candidate Status" ∈ columns fdf →
  stage_counts fdf
  = Ok ((fun st => count_rows (fun r => status r = Str st) fdf) <$> stages).
Proof.
  intros Hs. unfold stage_counts, stages. cbn [mapM].
  rewrite (getitem_ok _ _ Hs). cbn [mbind Exc_bind mret Exc_ret fmap list_fmap].
  unfold len, getitem_mask, count_rows, status. cbn [rows].
  by rewrite !mask_eq_str.
Qed.

Lemma stage_of_row_unique (v : value) :
  (length (filter (fun st => v = Str st) stages) ≤ 1)%nat.
Proof.
  unfold stages. rewrite !filter_cons, filter_nil.
  repeat match goal with
         | |- context [decide (?P)] => destruct (decide P)
         end; simplify_eq; cbn; lia.
Qed.

Lemma stage_of_row_none (v : value) :
  v ∉ Str <$> stages → filter (fun st => v = Str st) stages = [].
Proof.
  intros Hv. unfold stages in *. rewrite !filter_cons, filter_nil.
  repeat case_decide; try done; subst v; exfalso; apply Hv; set_solver.
Qed.

Lemma length_filter_cons {A} (P : A → Prop) `{!∀ x, Decision (P x)} x l :
  length (filter P (x :: l))
  = ((if decide (P x) then 1 else 0) + length (filter P l))%nat.
Proof. rewrite filter_cons. by destruct (decide (P x)). Qed.

Lemma stage_indicator (v : value) :
  let i (P : Prop) `{!Decision P} := if decide P then 1%nat else 0%nat in
  (i (v = Str "Inquiry") + (i (v = Str "Applicant") + (i (v = Str "File Complete")
     + (i (v = Str "Decision") + (i (v = Str "Contract") + 0)))))%nat
  = i (v ∈ Str <$> stages)
  ∧ (i (v = Str "Inquiry") + i (v ∈ applied_statuses))%nat = i (v ∈ Str <$> stages).
Proof.
  cbn zeta. unfold stages, applied_statuses. cbn [fmap list_fmap].
  destruct (decide (v = Str "Inquiry")) as [->|?];
  [|destruct (decide (v = Str "Applicant")) as [->|?];
  [|destruct (decide (v = Str "File Complete")) as [->|?];
  [|destruct (decide (v = Str "Decision")) as [->|?];
  [|destruct (decide (v = Str "Contract")) as [->|?]]]]].
  all: repeat (rewrite decide_False by (first [discriminate | congruence])).
  all: repeat match goal with
       | |- context [decide (?x ∈ ?l)] => destruct (decide (x ∈ l))
       end.
  all: try (split; reflexivity).
  all: exfalso;
    repeat match goal with
    | H : _ ∈ _ :: _ |- _ => apply elem_of_cons in H; destruct H
    | H : _ ∈ [] |- _ => by apply elem_of_nil in H
    | H : _ ∉ _ |- _ => apply H; clear H; by repeat constructor
    end; congruence.
Qed.

Lemma stage_sum_rows (l : list (gmap string value)) :
  sum_list ((fun st => length (filter (fun r => status r = Str st) l)) <$> stages)
  = length (filter (fun r => status r ∈ Str <$> stages) l)
  ∧ (length (filter (fun r => status r = Str "Inquiry") l)
     + length (filter (fun r => status r ∈ applied_statuses) l))%nat
    = length (filter (fun r => status r ∈ Str <$> stages) l).
Proof.
  induction l as [|r l [IH1 IH2]]; [done|].
  destruct (stage_indicator (status r)) as [E1 E2]. cbn zeta in E1, E2.
  unfold stages at 1. unfold stages at 1 in IH1.
  cbn [fmap list_fmap sum_list sum_list_with] in *.
  rewrite !length_filter_cons. unfold id in *. lia.
Qed.

(** C5: on every table with a status column, a row is counted by at
    most one of the five stage counts and by none when its status is not
    one of the five stages; the five counts add up to the number of rows
    whose status is a stage, and to [total_inquiries +
    total_applications]. *)
Theorem funnel_counts_once (fdf : DataFrame) :
  "Candidate Status" ∈ columns fdf →
  ∃ counts inquiries applications,
    stage_counts fdf = Ok counts
    ∧ total_inquiries fdf = Ok inquiries
    ∧ total_applications fdf = Ok applications
    ∧ counts = (fun st => count_rows (fun r => status r = Str st) fdf) <$> stages
    ∧ (∀ r, r ∈ rows fdf →
         (length (filter (fun st => status r = Str st) stages) ≤ 1)%nat)
    ∧ (∀ r, r ∈ rows fdf → status r ∉ Str <$> stages →
         filter (fun st => status r = Str st) stages = [])
    ∧ sum_list counts = count_rows (fun r => status r ∈ Str <$> stages) fdf
    ∧ (inquiries + applications)%nat = sum_list counts.
Proof.
  intros Hs. eexists _, _, _.
  split; [by apply stage_counts_ok|].
  split; [by apply total_inquiries_ok|].
  split; [by apply total_applications_ok|].
  split; [done|].
  split; [intros r _; apply stage_of_row_unique|].
  split; [intros r _; apply stage_of_row_none|].
  unfold count_rows. destruct (stage_sum_rows (rows fdf)) as [H1 H2].
  split; [exact H1|]. by rewrite H2, H1.
Qed.

Lemma funnel_counts_once_witness :
  ∃ counts inquiries applications,
    stage_counts three_rows = Ok counts
    ∧ total_inquiries three_rows = Ok inquiries
    ∧ total_applications three_rows = Ok applications
    ∧ (inquiries + applications)%nat = sum_list counts.
Proof.
  assert (Hs : "Candidate Status" ∈ columns three_rows) by compute_done.
  destruct (funnel_counts_once three_rows Hs)
    as (cs & i & a & H1 & H2 & H3 & _ & _ & _ & _ & H4).
  exists cs, i, a. split; [exact H1|]. split; [exact H2|]. split; [exact H3|].
  exact H4.
Defined.

Lemma funnel_counts_example :
  stage_counts three_rows = Ok [2; 0; 0; 0; 1]%nat
  ∧ total_inquiries three_rows = Ok 2%nat
  ∧ total_applications three_rows = Ok 1%nat.
Proof. by vm_compute. Qed.

(** * Inquiries by month *)

Lemma mask_eq_str_frame df c s :
  getitem_mask df (eq_str ((fun r => cell r c) <$> rows df) s)
  = mkDF (columns df) (filter (fun r => cell r c = Str s) (rows df)).
Proof. unfold getitem_mask. by rewrite mask_eq_str. Qed.

(** * Counting by label *)

Lemma count_of_fmap {A} (h : A → value) (v : value) (l : list A) :
  count_of v (h <$> l) = length (filter (fun x => h x = v) l).
Proof.
  unfold count_of. induction l as [|x l IH]; [done|].
  rewrite fmap_cons, !length_filter_cons, IH. done.
Qed.

Lemma count_of_absent v (s : Series) : v ∉ s → count_of v s = 0%nat.
Proof.
  intros Hv. unfold count_of.
  induction s as [|x s IH]; [done|].
  rewrite length_filter_cons, IH.
  - rewrite decide_False; [done|]. intros ->. apply Hv. constructor.
  - intros H. apply Hv. by constructor.
Qed.

Lemma filter_key_fmap {V} (g : value → V) (k : value) (keys : list value) :
  NoDup keys →
  filter (fun p : value * V => p.1 = k) ((fun x => (x, g x)) <$> keys)
  = if decide (k ∈ keys) then [(k, g k)] else [].
Proof.
  induction 1 as [|x keys Hx Hnd IH]; [done|].
  rewrite fmap_cons, filter_cons, IH. cbn [fst].
  destruct (decide (x = k)) as [->|Hne].
  - rewrite (decide_False (P := k ∈ keys)) by done.
    by rewrite (decide_True (P := k ∈ k :: keys)) by constructor.
  - destruct (decide (k ∈ keys)) as [Hin|Hin].
    + by rewrite (decide_True (P := k ∈ x :: keys)) by (by constructor).
    + rewrite (decide_False (P := k ∈ x :: keys)); [done|].
      intros H. apply elem_of_cons in H as [?|?]; congruence.
Qed.

Lemma value_counts_key (s : Series) (k : value) :
  notna k = true →
  filter (fun p => p.1 = k) (value_counts s)
  = if decide (k ∈ s) then [(k, count_of k s)] else [].
Proof.
  intros Hk. unfold value_counts.
  pose proof (filter_Permutation (fun p : value * nat => p.1 = k) _ _
    (merge_sort_Permutation count_ge
       ((fun x => (x, count_of x s)) <$> remove_dups (filter (fun v => notna v) s))))
    as Hperm.
  rewrite filter_key_fmap in Hperm by apply NoDup_remove_dups.
  assert (k ∈ remove_dups (filter (fun v => notna v) s) ↔ k ∈ s) as Hiff.
  { rewrite elem_of_remove_dups, list_elem_of_filter. rewrite Hk. split; [by intros [_ ?] | done]. }
  destruct (decide (k ∈ s)) as [Hin|Hin].
  - rewrite decide_True in Hperm by (by apply Hiff).
    by apply Permutation_singleton_r.
  - rewrite decide_False in Hperm by (by rewrite Hiff).
    by apply Permutation_nil_r.
Qed.

Lemma merge_value_counts (keys : list value) (s : Series) :
  Forall (fun k => notna k = true) keys →
  fillna0 (merge_left keys (value_counts s)) = (fun k => (k, count_of k s)) <$> keys.
Proof.
  unfold fillna0, merge_left.
  induction 1 as [|k keys Hk _ IH]; [done|].
  rewrite bind_cons, fmap_app, IH, fmap_cons. f_equal.
  rewrite (value_counts_key s k Hk).
  destruct (decide (k ∈ s)); cbn; [done|].
  by rewrite count_of_absent.
Qed.

Lemma sort_months_descending (c : string → nat) :
  sort_by_category (Str <$> month_order) false
    ((fun k => (Str k, c k)) <$> month_order)
  = (fun k => (Str k, c k)) <$> rev month_order.
Proof. reflexivity. Qed.

Lemma month_series (P : DateParser) (l : list (gmap string value)) :
  strftime strftime_B
    (to_datetime (parse_mixed P) ((fun r => cell r "Inquiry Date Submitted") <$> l))
  = (fun r => match inquiry_month P r with Some m => Str m | None => NaN end) <$> l.
Proof.
  unfold strftime, to_datetime. rewrite <- !list_fmap_compose.
  apply list_fmap_ext. intros _ r _. cbn. unfold inquiry_month.
  by destruct (coerce _ _).
Qed.

Lemma monthly_inquiries_ok (P : DateParser) (fdf : DataFrame) :
  "Candidate Status" ∈ columns fdf →
  "Inquiry Date Submitted" ∈ columns fdf →
  monthly_inquiries P fdf
  = Ok ((fun m => (Str m,
                   count_rows (fun r => status r = Str "Inquiry"
                                        ∧ inquiry_month P r = Some m) fdf))
        <$> rev month_order).
Proof.
  intros Hs Hd. unfold monthly_inquiries.
  rewrite (getitem_ok _ _ Hs). cbn [mbind Exc_bind mret Exc_ret]. unfold copy.
  rewrite mask_eq_str_frame.
  set (inq := mkDF (columns fdf)
                (filter (fun r => cell r "Candidate Status" = Str "Inquiry") (rows fdf))).
  rewrite (getitem_ok inq "Inquiry Date Submitted") by done.
  cbn [mbind Exc_bind mret Exc_ret].
  rewrite getitem_setitem_same by (unfold to_datetime; by rewrite !length_fmap).
  cbn [mbind Exc_bind mret Exc_ret]. rewrite dt_to_datetime.
  cbn [mbind Exc_bind mret Exc_ret].
  rewrite getitem_setitem_same
    by (rewrite setitem_rows_length;
        unfold strftime, to_datetime; by rewrite !length_fmap).
  cbn [mbind Exc_bind mret Exc_ret]. f_equal.
  rewrite merge_value_counts
    by (unfold month_order; repeat constructor).
  rewrite <- list_fmap_compose.
  rewrite month_series.
  change ((fun k : value => (k, count_of k ?s)) ∘ Str)
    with (fun m : string => (Str m, count_of (Str m) s)).
  rewrite sort_months_descending.
  apply list_fmap_ext. intros _ m _. f_equal.
  rewrite count_of_fmap. unfold count_rows, inq, status. cbn [rows].
  rewrite list_filter_filter. f_equal.
  apply list_filter_iff. intros r.
  unfold status. destruct (inquiry_month P r); split; intros [? ?]; split; congruence.
Qed.

Lemma sum_list_cons (x : nat) (l : list nat) :
  sum_list (x :: l) = (x + sum_list l)%nat.
Proof. reflexivity. Qed.

Lemma sum_indicator {B} `{EqDecision B} (b : B) (L : list B) :
  NoDup L →
  sum_list ((fun m => if decide (b = m) then 1%nat else 0%nat) <$> L)
  = if decide (b ∈ L) then 1%nat else 0%nat.
Proof.
  induction 1 as [|m L Hm Hnd IH]; [done|].
  rewrite fmap_cons, sum_list_cons, IH.
  destruct (decide (b = m)) as [->|Hne].
  - rewrite (decide_False (P := m ∈ L)) by done.
    by rewrite (decide_True (P := m ∈ m :: L)) by constructor.
  - destruct (decide (b ∈ L)).
    + by rewrite (decide_True (P := b ∈ m :: L)) by (by constructor).
    + rewrite (decide_False (P := b ∈ m :: L)); [done|].
      intros H. apply elem_of_cons in H as [?|?]; congruence.
Qed.

Lemma sum_list_plus {B} (f g : B → nat) (L : list B) :
  sum_list ((fun m => (f m + g m)%nat) <$> L)
  = (sum_list (f <$> L) + sum_list (g <$> L))%nat.
Proof.
  induction L as [|m L IH]; [done|].
  rewrite !fmap_cons, !sum_list_cons, IH. lia.
Qed.

(** Counting per label and adding up counts every element whose label is
    listed, once. *)
Lemma sum_counts_by_label {A B} `{EqDecision B} (h : A → B) (L : list B)
  (l : list A) :
  NoDup L →
  sum_list ((fun m => length (filter (fun x => h x = m) l)) <$> L)
  = length (filter (fun x => h x ∈ L) l).
Proof.
  intros Hnd. induction l as [|x l IH].
  { clear Hnd. induction L as [|m L IHL]; [done|].
    by rewrite fmap_cons, sum_list_cons, IHL. }
  rewrite length_filter_cons, <- IH, <- (sum_indicator (h x) L Hnd), <- sum_list_plus.
  f_equal. apply list_fmap_ext. intros _ m _. by rewrite length_filter_cons.
Qed.

(** C3, as the code has it: on every filtered table with the two
    columns, the inquiries-by-month table has exactly 12 rows, one per
    month name, in the reverse of the academic-year order (July, June,
    ..., September, August: the table is sorted descending); each month's
    count is the number of rows with status Inquiry whose inquiry date is
    present or parsable and falls in that month, hence 0 when there is
    none; the 12 counts add up to the number of Inquiry rows with a
    present or parsable inquiry date. *)
Theorem monthly_inquiries_complete (P : DateParser) (fdf : DataFrame) :
  "Candidate Status" ∈ columns fdf →
  "Inquiry Date Submitted" ∈ columns fdf →
  ∃ t : list (value * nat),
    monthly_inquiries P fdf = Ok t
    ∧ length t = 12%nat
    ∧ t.*1 = Str <$> rev month_order
    ∧ (∀ m n, (Str m, n) ∈ t →
         n = count_rows (fun r => status r = Str "Inquiry"
                                  ∧ inquiry_month P r = Some m) fdf)
    ∧ sum_list t.*2
      = count_rows (fun r => status r = Str "Inquiry"
                             ∧ is_Some (inquiry_month P r)) fdf.
Proof.
  intros Hs Hd. eexists. split; [by apply monthly_inquiries_ok|].
  split; [by rewrite length_fmap|].
  split; [by rewrite <- list_fmap_compose|].
  split.
  - intros m n Hin. apply list_elem_of_fmap in Hin as (m' & [= -> ->] & _). done.
  - rewrite <- list_fmap_compose. unfold count_rows.
    transitivity (sum_list
      ((fun o => length (filter (fun r => inquiry_month P r = o)
                   (filter (fun r => status r = Str "Inquiry") (rows fdf))))
       <$> (Some <$> rev month_order))).
    { rewrite <- list_fmap_compose. f_equal. apply list_fmap_ext. intros _ m _. cbn.
      rewrite list_filter_filter. f_equal. apply list_filter_iff. tauto. }
    rewrite sum_counts_by_label by (by compute_done).
    rewrite list_filter_filter. f_equal. apply list_filter_iff. intros r.
    split; [intros [Hm ?]; split; [done|] | intros [? Hm]; split; [|done]].
    + apply list_elem_of_fmap in Hm as (m & -> & _). by eexists.
    + destruct Hm as [m Hm]. rewrite Hm. apply list_elem_of_fmap_2.
      apply list_elem_of_In, (proj1 (in_rev _ _)), list_elem_of_In.
      unfold inquiry_month in Hm. destruct (coerce _ _); try done.
      injection Hm as <-. apply strftime_B_month_order.
Qed.

Lemma monthly_inquiries_complete_witness :
  ∃ t : list (value * nat),
    monthly_inquiries one_date_parser inquiry_sample = Ok t
    ∧ length t = 12%nat
    ∧ t.*1 = Str <$> rev month_order
    ∧ sum_list t.*2 = 2%nat.
Proof.
  assert (Hs : "Candidate Status" ∈ columns inquiry_sample) by compute_done.
  assert (Hd : "Inquiry Date Submitted" ∈ columns inquiry_sample) by compute_done.
  destruct (monthly_inquiries_complete one_date_parser inquiry_sample Hs Hd)
    as (t & Ht & Hlen & Hord & _ & Hsum).
  exists t. split; [exact Ht|]. split; [exact Hlen|]. split; [exact Hord|].
  rewrite Hsum. vm_compute. reflexivity.
Defined.

Lemma monthly_inquiries_example :
  monthly_inquiries one_date_parser inquiry_sample
  = Ok [(Str "July", 0); (Str "June", 0); (Str "May", 0); (Str "April", 0);
        (Str "March", 0); (Str "February", 0); (Str "January", 2);
        (Str "December", 0); (Str "November", 0); (Str "October", 0);
        (Str "September", 0); (Str "August", 0)]%nat.
Proof. vm_compute. reflexivity. Qed.

(** C3, as stated, fails: the rows of the table are not in the order
    August, September, ..., July. *)
Lemma monthly_inquiries_not_academic_order :
  ¬ ∃ t : list (value * nat),
      monthly_inquiries one_date_parser inquiry_sample = Ok t
      ∧ t.*1 = Str <$> month_order.
Proof.
  intros (t & Ht & Hord). rewrite monthly_inquiries_example in Ht.
  injection Ht as <-. discriminate Hord.
Qed.

(** * The empty selection *)

(** C6: on every table with a year column the filter returns a table
    with the same columns whose rows are exactly the rows with an
    Entering Year in the selection, in their order; with the empty
    selection it has no rows, and on that table (the candidate columns
    present) no derivation raises: the counts and both rates are 0, the
    five funnel counts are 0, the cross-tabulation, the grade breakdown,
    the three distributions, the timeline and the decision-time table are
    empty, and the month table is its 12 rows, each with 0. *)
Theorem empty_selection_results (P : DateParser) (df : DataFrame)
  (selected_years : list value) :
  "Entering Year" ∈ columns df →
  ∃ f : DataFrame,
    filtered_df df selected_years = Ok f
    ∧ columns f = columns df
    ∧ rows f = filter (fun r => year r ∈ selected_years) (rows df)
    ∧ (selected_years = [] →
       rows f = []
       ∧ (candidate_columns ⊆ columns df →
          total_inquiries f = Ok 0%nat
          ∧ total_applications f = Ok 0%nat
          ∧ total_accepted f = Ok 0%nat
          ∧ total_contracts f = Ok 0%nat
          ∧ acceptance_rate f = Ok 0%Q
          ∧ yield_rate f = Ok 0%Q
          ∧ stage_counts f = Ok [0; 0; 0; 0; 0]%nat
          ∧ status_by_grade f = Ok (mkCrossTab [] [] [])
          ∧ grade_inquiries f = Ok []
          ∧ monthly_inquiries P f
            = Ok ((fun m => (Str m, 0%nat)) <$> rev month_order)
          ∧ gender_dist f = Ok []
          ∧ intl_dist f = Ok []
          ∧ fa_dist f = Ok []
          ∧ snd <$> monthly_apps f = Ok (Some [])
          ∧ snd <$> avg_decision_time f = Ok [])).
Proof.
  intros Hy. eexists. split; [by apply filtered_df_ok|].
  split; [done|]. split; [done|].
  intros ->. cbn [rows].
  assert (Hnil : filter (fun r => year r ∈ []) (rows df) = []).
  { induction (rows df) as [|r l IH]; [done|].
    rewrite filter_cons_False; [done|]. apply not_elem_of_nil. }
  rewrite Hnil. split; [done|]. intros Hc.
  set (f := mkDF (columns df) []).
  assert (Hcol : ∀ c, c ∈ candidate_columns → c ∈ columns f)
    by (intros c Hin; by apply Hc).
  assert (Hget : ∀ c, c ∈ candidate_columns → getitem f c = Ok []).
  { intros c Hin. rewrite (getitem_ok f c (Hcol c Hin)). reflexivity. }
  assert (Hs : "Candidate Status" ∈ columns f) by (apply Hcol; compute_done).
  assert (Hd : "Candidate Decision" ∈ columns f) by (apply Hcol; compute_done).
  assert (Hi : "Inquiry Date Submitted" ∈ columns f) by (apply Hcol; compute_done).
  assert (Ha : "Application Date Submitted" ∈ columns f) by (apply Hcol; compute_done).
  split; [by rewrite total_inquiries_ok|].
  split; [by rewrite total_applications_ok|].
  split; [by rewrite total_accepted_ok|].
  split; [by rewrite total_contracts_ok|].
  split.
  { unfold acceptance_rate.
    by rewrite total_accepted_ok, total_applications_ok. }
  split.
  { unfold yield_rate.
    by rewrite total_accepted_ok, total_contracts_ok. }
  split; [by rewrite stage_counts_ok|].
  split.
  { unfold status_by_grade. by rewrite !Hget by compute_done. }
  split.
  { unfold grade_inquiries. rewrite (Hget "Candidate Status") by compute_done.
    cbn [mbind Exc_bind]. change (getitem_mask f (eq_str [] "Inquiry")) with f.
    by rewrite Hget by compute_done. }
  split; [by rewrite monthly_inquiries_ok|].
  split; [unfold gender_dist; by rewrite Hget by compute_done|].
  split; [unfold intl_dist; by rewrite Hget by compute_done|].
  split; [unfold fa_dist; by rewrite Hget by compute_done|].
  split.
  { unfold monthly_apps. rewrite decide_True by done.
    rewrite Hget by compute_done. cbn [mbind Exc_bind dt forallb].
    by rewrite getitem_setitem_same. }
  unfold avg_decision_time. rewrite !Hget by compute_done.
  cbn [mbind Exc_bind sub_datetime forallb andb zip_with dt_days fmap list_fmap].
  rewrite (getitem_setitem_other f "Days_to_Decision" "Entering Year");
    [|discriminate|reflexivity].
  rewrite Hget by compute_done.
  cbn [mbind Exc_bind]. by rewrite getitem_setitem_same.
Qed.

Lemma empty_selection_results_witness :
  ∃ f : DataFrame,
    filtered_df three_rows [] = Ok f
    ∧ columns f = columns three_rows
    ∧ rows f = []
    ∧ total_inquiries f = Ok 0%nat
    ∧ acceptance_rate f = Ok 0%Q
    ∧ snd <$> avg_decision_time f = Ok [].
Proof.
  assert (Hy : "Entering Year" ∈ columns three_rows) by compute_done.
  destruct (empty_selection_results one_date_parser three_rows [] Hy)
    as (f & Hf & Hcols & _ & Hempty).
  destruct (Hempty eq_refl) as [Hrows Hall].
  assert (Hc : candidate_columns ⊆ columns three_rows) by (intros c Hin; exact Hin).
  destruct (Hall Hc) as (H1 & _ & _ & _ & H5 & _ & _ & _ & _ & _ & _ & _ & _ & _ & H15).
  exists f. split; [exact Hf|]. split; [exact Hcols|]. split; [exact Hrows|].
  split; [exact H1|]. split; [exact H5|]. exact H15.
Defined.


(** * Average days to decision *)

Lemma sorted_labels_elem (s : list value) (x : value) :
  x ∈ sorted_labels s ↔ notna x ∧ x ∈ s.
Proof.
  unfold sorted_labels. rewrite merge_sort_Permutation, elem_of_remove_dups.
  exact (list_elem_of_filter (fun v => notna v) s x).
Qed.

Lemma sorted_labels_NoDup (s : list value) : NoDup (sorted_labels s).
Proof.
  unfold sorted_labels. rewrite merge_sort_Permutation. apply NoDup_remove_dups.
Qed.


Lemma datetime_column_forallb df c :
  datetime_column df c → forallb is_datetimelike ((fun r => cell r c) <$> rows df) = true.
Proof.
  unfold datetime_column. induction 1 as [|r l Hr _ IH]; [done|].
  rewrite fmap_cons. cbn [forallb]. rewrite IH. by destruct (is_datetimelike _).
Qed.





Lemma avg_decision_time_example :
  snd <$> avg_decision_time latency_sample
  = Ok [(Int 2022, Some (10 # 1)%Q); (Int 2023, None); (Int 2024, Some (-10 # 1)%Q)].
Proof. vm_compute. reflexivity. Qed.




(** * Status by grade *)

Lemma length_filter_fmap {A B} (h : A → B) (Q : B → Prop) `{!∀ y, Decision (Q y)}
  (l : list A) :
  length (filter Q (h <$> l)) = length (filter (fun x => Q (h x)) l).
Proof.
  induction l as [|x l IH]; [done|].
  by rewrite fmap_cons, !length_filter_cons, IH.
Qed.

Lemma length_filter_all {A} (Q : A → Prop) `{!∀ y, Decision (Q y)} (l : list A) :
  (∀ x, x ∈ l → Q x) → length (filter Q l) = length l.
Proof.
  induction l as [|x l IH]; intros HQ; [done|].
  rewrite filter_cons_True by (apply HQ; constructor). cbn [length].
  rewrite IH; [done|]. intros y Hy. apply HQ. by constructor.
Qed.

Lemma zip_columns (l : list (gmap string value)) :
  zip (grade <$> l) (status <$> l) = (fun r => (grade r, status r)) <$> l.
Proof. induction l as [|r l IH]; [done|]. rewrite !fmap_cons. cbn. by f_equal. Qed.

Lemma find_label (L : list value) (g : value) :
  g ∈ L → ∃ i, list_find (fun x => x = g) L = Some (i, g) ∧ L !! i = Some g.
Proof.
  intros Hin.
  destruct (list_find_elem_of (fun x => x = g) L g Hin eq_refl) as [[i x] Hf].
  pose proof Hf as Hf'. apply list_find_Some in Hf' as (Hl & -> & _).
  by exists i.
Qed.

Lemma ct_cell_crosstab (index cols : list value) (g s : value) :
  g ∈ ct_index (crosstab index cols) →
  s ∈ ct_columns (crosstab index cols) →
  ct_cell (crosstab index cols) g s
  = Some (length (filter (fun p => p = (g, s))
                    (filter both_present (zip index cols)))).
Proof.
  intros Hg Hs. unfold ct_cell.
  destruct (find_label _ _ Hg) as (i & Hfi & Hi).
  destruct (find_label _ _ Hs) as (j & Hfj & Hj).
  rewrite Hfi, Hfj. cbn [fmap option_fmap option_map mbind option_bind fst].
  unfold crosstab in *. cbn [ct_data ct_index ct_columns] in *.
  rewrite list_lookup_fmap, Hi. cbn [fmap option_fmap option_map mbind option_bind].
  by rewrite list_lookup_fmap, Hj.
Qed.

Lemma status_by_grade_ok (fdf : DataFrame) :
  "Entering Grade" ∈ columns fdf →
  "Candidate Status" ∈ columns fdf →
  status_by_grade fdf = Ok (crosstab (grade <$> rows fdf) (status <$> rows fdf)).
Proof.
  intros Hg Hs. unfold status_by_grade.
  by rewrite (getitem_ok _ _ Hg), (getitem_ok _ _ Hs).
Qed.

Lemma tabulated_pair (l : list (gmap string value)) (p : value * value) :
  p ∈ filter both_present (zip (grade <$> l) (status <$> l))
  ↔ ∃ r, r ∈ l ∧ grade r = p.1 ∧ status r = p.2
         ∧ notna (grade r) ∧ notna (status r).
Proof.
  rewrite zip_columns. rewrite list_elem_of_filter, list_elem_of_fmap.
  unfold both_present. split.
  - intros [[Hn1 Hn2] (r & -> & Hr)]. by exists r.
  - intros (r & Hr & H1 & H2 & Hn1 & Hn2). destruct p as [g s]. cbn in *. subst.
    split; [done|]. by exists r.
Qed.

(** C10, as the code has it: on every filtered table with the two
    columns, the row labels of the cross-tabulation are exactly the grade
    values of the rows that have both a grade and a status, the column
    labels exactly the status values of those rows, without repetition;
    every cell at a row label and a column label is there and holds the
    number of rows with that grade and that status, 0 when there is none;
    rows with a missing grade or a missing status are in no cell: the
    cells add up to the number of rows that have both. *)
Theorem status_by_grade_dense (fdf : DataFrame) :
  "Entering Grade" ∈ columns fdf →
  "Candidate Status" ∈ columns fdf →
  ∃ t : CrossTab,
    status_by_grade fdf = Ok t
    ∧ NoDup (ct_index t) ∧ NoDup (ct_columns t)
    ∧ (∀ g, g ∈ ct_index t ↔
         ∃ r, r ∈ rows fdf ∧ grade r = g ∧ notna (grade r) ∧ notna (status r))
    ∧ (∀ s, s ∈ ct_columns t ↔
         ∃ r, r ∈ rows fdf ∧ status r = s ∧ notna (grade r) ∧ notna (status r))
    ∧ (∀ g s, g ∈ ct_index t → s ∈ ct_columns t →
         ct_cell t g s
         = Some (count_rows (fun r => grade r = g ∧ status r = s) fdf))
    ∧ sum_list (sum_list <$> ct_data t)
      = count_rows (fun r => notna (grade r) ∧ notna (status r)) fdf.
Proof.
  intros Hg Hs. eexists. split; [by apply status_by_grade_ok|].
  set (pairs := filter both_present (zip (grade <$> rows fdf) (status <$> rows fdf))).
  assert (Hidx : ∀ g, g ∈ sorted_labels pairs.*1 ↔
            ∃ r, r ∈ rows fdf ∧ grade r = g ∧ notna (grade r) ∧ notna (status r)).
  { intros g. rewrite sorted_labels_elem, list_elem_of_fmap. split.
    - intros [_ ([g' s] & -> & Hp)]. apply tabulated_pair in Hp as (r & ? & ? & ? & ? & ?).
      by exists r.
    - intros (r & Hr & <- & Hn1 & Hn2). split; [done|].
      exists (grade r, status r). split; [done|]. apply tabulated_pair. by exists r. }
  assert (Hcol : ∀ s, s ∈ sorted_labels pairs.*2 ↔
            ∃ r, r ∈ rows fdf ∧ status r = s ∧ notna (grade r) ∧ notna (status r)).
  { intros s. rewrite sorted_labels_elem, list_elem_of_fmap. split.
    - intros [_ ([g' s'] & -> & Hp)]. apply tabulated_pair in Hp as (r & ? & ? & ? & ? & ?).
      by exists r.
    - intros (r & Hr & <- & Hn1 & Hn2). split; [done|].
      exists (grade r, status r). split; [done|]. apply tabulated_pair. by exists r. }
  cbn [crosstab ct_index ct_columns ct_data]. fold pairs.
  split; [apply sorted_labels_NoDup|]. split; [apply sorted_labels_NoDup|].
  split; [exact Hidx|]. split; [exact Hcol|]. split.
  - intros g s Hgi Hsi.
    rewrite ct_cell_crosstab by done. f_equal. fold pairs. unfold pairs, count_rows.
    rewrite zip_columns, list_filter_filter, length_filter_fmap. f_equal.
    apply list_filter_iff. intros r. unfold both_present. cbn [fst snd].
    apply Hidx in Hgi as (r1 & _ & <- & Hn1 & _).
    apply Hcol in Hsi as (r2 & _ & <- & _ & Hn2).
    split.
    + intros [[= H1 H2] _]. by split.
    + intros [H1 H2]. rewrite H1, H2. done.
  - rewrite <- list_fmap_compose.
    assert (Hin1 : ∀ p, p ∈ pairs → p.1 ∈ sorted_labels pairs.*1).
    { intros p Hp. apply sorted_labels_elem. split.
      - apply list_elem_of_filter in Hp as [[Hn _] _]. exact Hn.
      - apply list_elem_of_fmap. by exists p. }
    assert (Hin2 : ∀ p, p ∈ pairs → p.2 ∈ sorted_labels pairs.*2).
    { intros p Hp. apply sorted_labels_elem. split.
      - apply list_elem_of_filter in Hp as [[_ Hn] _]. exact Hn.
      - apply list_elem_of_fmap. by exists p. }
    transitivity (sum_list
      ((fun g => length (filter (fun p : value * value => p.1 = g) pairs))
       <$> sorted_labels pairs.*1)).
    { f_equal. apply list_fmap_ext. intros _ g _. unfold compose.
      transitivity (sum_list
        ((fun s => length (filter (fun p : value * value => p.2 = s)
                      (filter (fun p : value * value => p.1 = g) pairs)))
         <$> sorted_labels pairs.*2)).
      { f_equal. apply list_fmap_ext. intros _ s _.
        rewrite list_filter_filter. f_equal. apply list_filter_iff.
        intros [g' s']. cbn. split; [by intros [= -> ->] | by intros [-> ->]]. }
      rewrite sum_counts_by_label by apply sorted_labels_NoDup.
      apply length_filter_all. intros p Hp.
      apply list_elem_of_filter in Hp as [_ Hp]. by apply Hin2. }
    rewrite sum_counts_by_label by apply sorted_labels_NoDup.
    rewrite length_filter_all by exact Hin1.
    unfold pairs, count_rows. rewrite zip_columns, length_filter_fmap. done.
Qed.

Lemma status_by_grade_example :
  status_by_grade grade_sample
  = Ok (mkCrossTab [Str "Grade 1"; Str "Grade 2"] [Str "Applicant"; Str "Inquiry"]
          [[0; 2]; [1; 0]]%nat).
Proof. vm_compute. reflexivity. Qed.

Lemma status_by_grade_dense_witness :
  ∃ t : CrossTab,
    status_by_grade grade_sample = Ok t
    ∧ NoDup (ct_index t)
    ∧ Str "Grade 2" ∈ ct_index t
    ∧ sum_list (sum_list <$> ct_data t) = 3%nat.
Proof.
  assert (Hg : "Entering Grade" ∈ columns grade_sample) by compute_done.
  assert (Hs : "Candidate Status" ∈ columns grade_sample) by compute_done.
  destruct (status_by_grade_dense grade_sample Hg Hs)
    as (t & Ht & Hnd & _ & Hidx & _ & _ & Hsum).
  exists t. split; [exact Ht|]. split; [exact Hnd|]. split.
  - apply Hidx.
    exists (candidate 2023 (Str "Grade 2") (Str "Applicant") NaN NaT NaT NaT).
    split; [do 2 right; left|]. split; [reflexivity|]. split; exact I.
  - rewrite Hsum. vm_compute. reflexivity.
Defined.

(** C10, as stated, fails: grade 3 is the grade of a filtered row and is
    not a row of the cross-tabulation, because that row has no status. *)
Lemma status_by_grade_drops_partial_rows :
  ∃ t : CrossTab,
    status_by_grade grade_sample = Ok t
    ∧ (∃ r, r ∈ rows grade_sample ∧ grade r = Str "Grade 3")
    ∧ Str "Grade 3" ∉ ct_index t.
Proof.
  eexists. split; [exact status_by_grade_example|]. split.
  - exists (candidate 2023 (Str "Grade 3") NaN NaN NaT NaT NaT).
    split; [do 3 right; left | reflexivity].
  - cbn [ct_index]. intros H.
    repeat (apply elem_of_cons in H as [H|H]; [discriminate H|]).
    by apply elem_of_nil in H.
Qed.


(** * The loader *)

Lemma setitem_columns_present df c s :
  c ∈ columns df → columns (setitem df c s) = columns df.
Proof. intros H. unfold setitem. cbn [columns]. by rewrite decide_True. Qed.

Lemma length_coerce_column P df c :
  length (coerce_column P df c) = length (rows df).
Proof. unfold coerce_column, to_datetime, column. by rewrite !length_fmap. Qed.

Lemma convert_column_ok P df c :
  c ∈ columns df →
  convert_column P df c = Ok (setitem df c (coerce_column P df c)).
Proof. intros H. unfold convert_column. by rewrite (getitem_ok _ _ H). Qed.

Lemma convert_column_KeyError P df c :
  c ∉ columns df → convert_column P df c = Raise (KeyError c).
Proof. intros H. unfold convert_column. by rewrite (getitem_KeyError _ _ H). Qed.

(** The frame the loop of [load_data] ends with. *)
Lemma for_each_convert P (cols : list string) (df : DataFrame) :
  cols ⊆ columns df →
  for_each cols (convert_column P) df
  = Ok (foldl (fun d c => setitem d c (coerce_column P d c)) df cols).
Proof.
  revert df. induction cols as [|c cols IH]; intros df Hsub; [done|].
  cbn [for_each foldl]. rewrite convert_column_ok by (apply Hsub; constructor).
  cbn [mbind Exc_bind]. apply IH. intros c' Hc'.
  rewrite setitem_columns_present by (apply Hsub; constructor).
  apply Hsub. by constructor.
Qed.

Lemma for_each_convert_KeyError P (cols : list string) (df : DataFrame) :
  ¬ (cols ⊆ columns df) →
  ∃ c, c ∈ cols ∧ (c ∉ columns df)
       ∧ for_each cols (convert_column P) df = Raise (KeyError c).
Proof.
  revert df. induction cols as [|c cols IH]; intros df Hsub.
  { exfalso. apply Hsub. intros c Hc. by apply elem_of_nil in Hc. }
  cbn [for_each]. destruct (decide (c ∈ columns df)) as [Hc|Hc].
  - rewrite convert_column_ok by done. cbn [mbind Exc_bind].
    destruct (IH (setitem df c (coerce_column P df c))) as (c' & Hin & Hout & Hr).
    { intros Hsub'. apply Hsub. intros c' Hc'.
      apply elem_of_cons in Hc' as [->|Hc']; [done|].
      rewrite <- (setitem_columns_present df c (coerce_column P df c)) by done.
      by apply Hsub'. }
    exists c'. split; [by constructor|]. split; [|done].
    by rewrite setitem_columns_present in Hout.
  - exists c. split; [constructor|]. split; [done|].
    by rewrite convert_column_KeyError.
Qed.

Lemma loop_length P (cols : list string) (df : DataFrame) :
  length (rows (foldl (fun d c => setitem d c (coerce_column P d c)) df cols))
  = length (rows df).
Proof.
  revert df. induction cols as [|c cols IH]; intros df; [done|].
  cbn [foldl]. rewrite IH. apply setitem_rows_length, length_coerce_column.
Qed.

Lemma loop_columns P (cols : list string) (df : DataFrame) :
  cols ⊆ columns df →
  columns (foldl (fun d c => setitem d c (coerce_column P d c)) df cols) = columns df.
Proof.
  revert df. induction cols as [|c cols IH]; intros df Hsub; [done|].
  cbn [foldl]. rewrite IH.
  - apply setitem_columns_present, Hsub. constructor.
  - intros c' Hc'. rewrite setitem_columns_present by (apply Hsub; constructor).
    apply Hsub. by constructor.
Qed.

Lemma column_setitem df c c' s :
  length s = length (rows df) →
  column (setitem df c s) c' = if decide (c = c') then s else column df c'.
Proof.
  intros Hlen. unfold column, setitem. cbn [rows].
  destruct (decide (c = c')) as [<-|Hne].
  - by apply column_setitem_same.
  - by apply column_setitem_other.
Qed.

(** Each listed column is converted once, from its cells in the file;
    the other columns are as in the file. *)
Lemma loop_column P (cols : list string) (df : DataFrame) (c : string) :
  NoDup cols →
  column (foldl (fun d c => setitem d c (coerce_column P d c)) df cols) c
  = if decide (c ∈ cols) then coerce_column P df c else column df c.
Proof.
  intros Hnd. revert df. induction Hnd as [|c0 cols Hc0 Hnd IH]; intros df; [done|].
  cbn [foldl]. rewrite IH.
  destruct (decide (c = c0)) as [->|Hne].
  - rewrite (decide_False (P := c0 ∈ cols)) by done.
    rewrite (decide_True (P := c0 ∈ c0 :: cols)) by constructor.
    rewrite column_setitem by apply length_coerce_column.
    by rewrite decide_True.
  - assert (Hcol : column (setitem df c0 (coerce_column P df c0)) c = column df c).
    { rewrite column_setitem by apply length_coerce_column.
      by rewrite decide_False. }
    destruct (decide (c ∈ cols)) as [Hin|Hin].
    + rewrite (decide_True (P := c ∈ c0 :: cols)) by (by constructor).
      unfold coerce_column at 1 3. by rewrite Hcol.
    + rewrite (decide_False (P := c ∈ c0 :: cols)); [done|].
      intros H. apply elem_of_cons in H as [?|?]; congruence.
Qed.

Lemma to_datetime_Forall p (s : list value) :
  Forall (fun v => is_datetimelike v) (to_datetime p s).
Proof.
  unfold to_datetime. apply Forall_fmap, Forall_true. intros v. cbn.
  destruct v; cbn [coerce]; try exact I. by destruct (p s0).
Qed.

Lemma load_data_ok P (fs : gmap string File) (t : DataFrame) :
  fs !! "data/enrollment.csv" = Some (Table t) →
  date_columns ⊆ columns t →
  ∃ df, load_data P fs = Ok df
        ∧ columns df = columns t
        ∧ length (rows df) = length (rows t)
        ∧ (∀ c, c ∈ date_columns → column df c = coerce_column P t c)
        ∧ (∀ c, c ∉ date_columns → column df c = column t c).
Proof.
  intros Hfile Hsub. unfold load_data, read_csv. rewrite Hfile.
  cbn [mbind Exc_bind]. rewrite for_each_convert by done.
  eexists. split; [done|].
  split; [by apply loop_columns|].
  split; [apply loop_length|].
  assert (Hnd : NoDup date_columns) by compute_done.
  split; intros c Hc; rewrite loop_column by done.
  - by rewrite decide_True.
  - by rewrite decide_False.
Qed.


Lemma load_data_example :
  ∃ df, load_data one_date_parser enrollment_fs = Ok df
        ∧ column df "Inquiry Date Submitted" = [Time jan15; NaT; NaT]
        ∧ column df "School Decision Date" = [NaT; Time jan15; NaT]
        ∧ column df "Candidate Status" = column enrollment_csv "Candidate Status".
Proof. eexists. split; [reflexivity|]. by vm_compute. Qed.




(** * The tables the derivations receive *)

Lemma load_data_inv P (fs : gmap string File) (d : DataFrame) :
  load_data P fs = Ok d →
  ∃ t, fs !! "data/enrollment.csv" = Some (Table t) ∧ date_columns ⊆ columns t.
Proof.
  intros Hd. unfold load_data, read_csv in Hd.
  destruct (fs !! "data/enrollment.csv") as [[|t]|]; try done.
  exists t. split; [done|]. cbn [mbind Exc_bind] in Hd.
  destruct (decide (date_columns ⊆ columns t)) as [|Hn]; [done|].
  destruct (for_each_convert_KeyError P _ _ Hn) as (c & _ & _ & Hr).
  by rewrite Hr in Hd.
Qed.

Lemma Forall_select {A} (Q : A → Prop) (mask : list bool) (l : list A) :
  Forall Q l → Forall Q (select mask l).
Proof.
  intros Hall. revert mask. induction Hall as [|x l Hx Hl IH]; intros mask.
  - destruct mask; constructor.
  - destruct mask as [|[] mask]; cbn [select]; [constructor| |apply IH].
    constructor; [done|apply IH].
Qed.

(** In the script the date columns of the filtered table hold timestamps
    or NaT, whatever the file and the selection. *)
Lemma pipeline_date_columns P (fs : gmap string File) (selected_years : list value)
  (d f : DataFrame) (c : string) :
  load_data P fs = Ok d →
  filtered_df d selected_years = Ok f →
  c ∈ date_columns →
  c ∈ columns f ∧ datetime_column f c.
Proof.
  intros Hd Hf Hc.
  destruct (load_data_inv P fs d Hd) as (t & Hfile & Hsub).
  destruct (load_data_ok P fs t Hfile Hsub) as (d' & Hd' & Hcols & _ & Hdate & _).
  rewrite Hd in Hd'. injection Hd' as <-.
  unfold filtered_df in Hf. destruct (getitem d "Entering Year") as [y|]; [|done].
  injection Hf as <-. cbn [columns getitem_mask].
  split; [rewrite Hcols; by apply Hsub|].
  assert (Hall : datetime_column d c).
  { unfold datetime_column.
    pose proof (to_datetime_Forall (parse_inferred P (column t c)) (column t c)) as Hall.
    fold (coerce_column P t c) in Hall. rewrite <- (Hdate c Hc) in Hall.
    unfold column in Hall. rewrite Forall_fmap in Hall. exact Hall. }
  unfold datetime_column, getitem_mask. cbn [rows]. by apply Forall_select.
Qed.

(** * The objects of the script *)

Lemma lift_inv {A} (m : Exc A) (h : list DataFrame) (a : A) (h' : list DataFrame) :
  lift m h = Ok (a, h') → m = Ok a ∧ h' = h.
Proof. unfold lift. destruct m; [|done]. by intros [= -> ->]. Qed.

(** What the script leaves in the store: the loaded table as [load_data]
    returned it, and the filtered table with the columns the timeline
    blocks assigned. *)
Lemma script_store (P : DateParser) (fs : gmap string File)
  (selected_years : list value) df filtered dash h :
  script P fs selected_years [] = Ok ((df, filtered, dash), h) →
  ∃ d f f1 f2 apps avg,
    load_data P fs = Ok d
    ∧ filtered_df d selected_years = Ok f
    ∧ monthly_apps f = Ok (f1, apps)
    ∧ avg_decision_time f1 = Ok (f2, avg)
    ∧ df = 0%nat ∧ filtered = 1%nat
    ∧ h = [d; f2]
    ∧ d_download dash = f2.
Proof.
  unfold script. intros H.
  repeat match type of H with
  | (lift ?m ≫= _) ?h = _ =>
      let E := fresh "E" in
      unfold mbind at 1, Py_bind at 1 in H;
      destruct (lift m h) as [[? ?]|] eqn:E; [|discriminate H];
      apply lift_inv in E as [E ->]
  | (new _ ≫= _) _ = _ =>
      unfold mbind at 1, Py_bind at 1, new at 1 in H; cbn [length app] in H
  | (deref _ ≫= _) _ = _ =>
      unfold mbind at 1, Py_bind at 1, deref at 1 in H;
      cbn [lookup list_lookup default] in H
  | (assign _ _ ≫= _) _ = _ =>
      unfold mbind at 1, Py_bind at 1, assign at 1 in H;
      cbn [insert list_insert] in H
  | (let '(_, _) := ?p in _) _ = _ => destruct p
  end.
  injection H as <- <- <- <-. unfold id in *.
  eexists _, _, _, _, _, _. repeat split; eassumption.
Qed.

Lemma monthly_apps_columns (f f1 : DataFrame) apps :
  "Application Date Submitted" ∈ columns f →
  "Application Month" ∉ columns f →
  monthly_apps f = Ok (f1, apps) →
  columns f1 = (columns f ++ ["Application Month"])%list
  ∧ ∃ t, apps = Some t.
Proof.
  intros Ha Hm. unfold monthly_apps. rewrite decide_True by done.
  rewrite (getitem_ok _ _ Ha). cbn [mbind Exc_bind].
  destruct (dt _) as [s|]; [|done]. cbn [mbind Exc_bind].
  destruct (getitem _ _) as [m|]; [|done]. cbn [mbind Exc_bind mret Exc_ret].
  intros [= <- <-]. split; [|by eexists].
  unfold setitem. cbn [columns]. by rewrite decide_False.
Qed.

Lemma avg_decision_time_columns (f f2 : DataFrame) avg :
  "Days_to_Decision" ∉ columns f →
  avg_decision_time f = Ok (f2, avg) →
  columns f2 = (columns f ++ ["Days_to_Decision"])%list.
Proof.
  intros Hm. unfold avg_decision_time.
  destruct (getitem f "School Decision Date") as [d|]; [|done].
  destruct (getitem f "Application Date Submitted") as [a|]; [|done].
  cbn [mbind Exc_bind]. destruct (sub_datetime d a) as [delta|]; [|done].
  cbn [mbind Exc_bind].
  destruct (getitem _ "Entering Year") as [y|]; [|done]. cbn [mbind Exc_bind].
  destruct (getitem _ "Days_to_Decision") as [v|]; [|done].
  cbn [mbind Exc_bind mret Exc_ret]. intros [= <- <-].
  unfold setitem. cbn [columns]. by rewrite decide_False.
Qed.

Lemma getitem_ok_inv df c s : getitem df c = Ok s → c ∈ columns df.
Proof. unfold getitem. by destruct (decide (c ∈ columns df)). Qed.

(** Every run of the script that completes, on a data file that does not
    itself have the two helper columns, leaves the loaded table as
    loaded and the object of [filtered_df] with the two columns added;
    that object is what the download serialises. *)
Lemma script_assigns_on_filtered_df (P : DateParser) (fs : gmap string File)
  (selected_years : list value) df filtered dash h :
  script P fs selected_years [] = Ok ((df, filtered, dash), h) →
  ∃ d f f2,
    load_data P fs = Ok d
    ∧ filtered_df d selected_years = Ok f
    ∧ h !! df = Some d
    ∧ h !! filtered = Some f2
    ∧ d_download dash = f2
    ∧ ("Application Month" ∉ columns d → "Days_to_Decision" ∉ columns d →
       columns f2 = (columns f ++ ["Application Month"; "Days_to_Decision"])%list).
Proof.
  intros Hrun.
  destruct (script_store _ _ _ _ _ _ _ Hrun)
    as (d & f & f1 & f2 & apps & avg & Hd & Hf & Happs & Havg & -> & -> & -> & Hdl).
  exists d, f, f2. repeat (split; [done|]).
  intros Hm Hdays.
  assert (Hcols : columns f = columns d).
  { unfold filtered_df in Hf. destruct (getitem d "Entering Year"); [|done].
    by injection Hf as <-. }
  assert (Ha : "Application Date Submitted" ∈ columns f).
  { destruct (decide ("Application Date Submitted" ∈ columns f)) as [|Hn]; [done|].
    unfold monthly_apps in Happs. rewrite decide_False in Happs by done.
    injection Happs as <- <-.
    unfold avg_decision_time in Havg.
    destruct (getitem f "School Decision Date"); [|done].
    cbn [mbind Exc_bind] in Havg.
    by rewrite (getitem_KeyError _ _ Hn) in Havg. }
  rewrite <- Hcols in Hm, Hdays.
  destruct (monthly_apps_columns f f1 apps Ha Hm Happs) as [H1 _].
  rewrite (avg_decision_time_columns f1 f2 avg); [|by rewrite H1, elem_of_app,
    list_elem_of_singleton; intros [?|?] | done].
  by rewrite H1, <- app_assoc.
Qed.


(** * Further properties of the statistics *)

Lemma count_rows_le (Q : gmap string value → Prop) `{!∀ r, Decision (Q r)} df :
  (count_rows Q df ≤ len df)%nat.
Proof. apply length_filter. Qed.

Lemma length_filter_impl {A} (Q1 Q2 : A → Prop) `{!∀ x, Decision (Q1 x)}
  `{!∀ x, Decision (Q2 x)} (l : list A) :
  (∀ x, x ∈ l → Q1 x → Q2 x) → (length (filter Q1 l) ≤ length (filter Q2 l))%nat.
Proof.
  induction l as [|x l IH]; intros Himp; [done|].
  rewrite !length_filter_cons.
  assert (length (filter Q1 l) ≤ length (filter Q2 l))%nat as Hle.
  { apply IH. intros y Hy. apply Himp. by constructor. }
  destruct (decide (Q1 x)) as [H1|H1]; destruct (decide (Q2 x)) as [H2|H2]; try lia.
  exfalso. apply H2, Himp; [constructor|done].
Qed.

(** The funnel and the rollups on one table: the funnel has the five
    counts in stage order, starting with the inquiries and ending with
    the contracts; the applications are the four later stages together;
    contracts are among the applications, and inquiries and applications
    together never exceed the number of rows. *)
Theorem funnel_endpoints (fdf : DataFrame) :
  "Candidate Status" ∈ columns fdf →
  ∃ inquiries applicants complete decided contracts applications : nat,
    stage_counts fdf = Ok [inquiries; applicants; complete; decided; contracts]
    ∧ total_inquiries fdf = Ok inquiries
    ∧ total_contracts fdf = Ok contracts
    ∧ total_applications fdf = Ok applications
    ∧ applications = (applicants + complete + decided + contracts)%nat
    ∧ (contracts ≤ applications)%nat
    ∧ (inquiries + applications ≤ len fdf)%nat.
Proof.
  intros Hs. eexists _, _, _, _, _, _.
  split; [by apply stage_counts_ok|].
  split; [by apply total_inquiries_ok|].
  split; [by apply total_contracts_ok|].
  split; [by apply total_applications_ok|].
  unfold count_rows.
  destruct (stage_sum_rows (rows fdf)) as [H1 H2].
  unfold stages in H1 at 1. cbn [fmap list_fmap] in H1.
  rewrite !sum_list_cons in H1. cbn [sum_list sum_list_with] in H1.
  pose proof (length_filter (fun r => status r ∈ Str <$> stages) (rows fdf)) as Hlen.
  unfold len. split; [lia|]. split; lia.
Qed.

Lemma funnel_endpoints_witness :
  ∃ inquiries applicants complete decided contracts applications : nat,
    stage_counts enrollment_loaded
    = Ok [inquiries; applicants; complete; decided; contracts]
    ∧ total_applications enrollment_loaded = Ok applications
    ∧ applications = (applicants + complete + decided + contracts)%nat.
Proof.
  assert (Hs : "Candidate Status" ∈ columns enrollment_loaded) by compute_done.
  destruct (funnel_endpoints enrollment_loaded Hs)
    as (i & a & c & d & k & apps & H1 & _ & _ & H4 & H5 & _).
  exists i, a, c, d, k, apps. split; [exact H1|]. split; [exact H4|exact H5].
Defined.

Lemma rate_le_100 (a b : nat) :
  (0 < b)%nat →
  (inject_Z (Z.of_nat a) / inject_Z (Z.of_nat b) * 100 <= 100)%Q ↔ (a ≤ b)%nat.
Proof.
  intros Hb. rewrite ratio_times_100 by done.
  assert (Hpos : Z.pos (Pos.of_nat b) = Z.of_nat b)
    by (rewrite <- positive_nat_Z, Nat2Pos.id; [done | lia]).
  unfold Qle. cbn [Qnum Qden]. rewrite Hpos. lia.
Qed.

Lemma rate_nonneg (a b : nat) :
  (0 < b)%nat → (0 <= inject_Z (Z.of_nat a) / inject_Z (Z.of_nat b) * 100)%Q.
Proof.
  intros Hb. rewrite ratio_times_100 by done. unfold Qle. cbn [Qnum Qden]. lia.
Qed.

(** Neither rate is negative, and a rate is above 100 exactly when its
    numerator count is larger than its denominator count: accepted rows
    outnumbering the applications, or contracts outnumbering the accepted
    rows. *)
Theorem rates_range (fdf : DataFrame) :
  "Candidate Status" ∈ columns fdf →
  "Candidate Decision" ∈ columns fdf →
  ∃ a y : Q,
    acceptance_rate fdf = Ok a ∧ yield_rate fdf = Ok y
    ∧ (0 <= a)%Q ∧ (0 <= y)%Q
    ∧ ((100 < a)%Q ↔
       (count_rows (fun r => status r ∈ applied_statuses) fdf
        < count_rows (fun r => decision r = Str "Accepted") fdf)%nat
       ∧ (0 < count_rows (fun r => status r ∈ applied_statuses) fdf)%nat)
    ∧ ((100 < y)%Q ↔
       (count_rows (fun r => decision r = Str "Accepted") fdf
        < count_rows (fun r => status r = Str "Contract") fdf)%nat
       ∧ (0 < count_rows (fun r => decision r = Str "Accepted") fdf)%nat).
Proof.
  intros Hs Hd. unfold acceptance_rate, yield_rate.
  rewrite (total_accepted_ok fdf Hd), (total_applications_ok fdf Hs),
    (total_contracts_ok fdf Hs).
  set (acc := count_rows (fun r => decision r = Str "Accepted") fdf).
  set (app := count_rows (fun r => status r ∈ applied_statuses) fdf).
  set (con := count_rows (fun r => status r = Str "Contract") fdf).
  cbn [mbind Exc_bind mret Exc_ret]. unfold truediv.
  assert (Hrate : ∀ n d : nat,
    ∃ q, (if decide (0 < d)%nat
          then (if decide (d = 0%nat) then Raise ZeroDivisionError
                else Ok (inject_Z (Z.of_nat n) / inject_Z (Z.of_nat d))%Q)
               ≫= (fun q => Ok (q * 100)%Q)
          else Ok 0%Q) = Ok q
         ∧ (0 <= q)%Q ∧ ((100 < q)%Q ↔ (d < n)%nat ∧ (0 < d)%nat)).
  { intros n d. destruct (decide (0 < d)%nat) as [Hp|Hp].
    - rewrite decide_False by lia. cbn [mbind Exc_bind]. eexists. split; [done|].
      split; [by apply rate_nonneg|].
      pose proof (rate_le_100 n d Hp) as Hle. split.
      + intros Hlt. apply Qlt_not_le in Hlt. split; [|done].
        destruct (decide (d < n)%nat); [done|]. exfalso. apply Hlt, Hle. lia.
      + intros [Hdn _]. apply Qnot_le_lt. intros H. apply Hle in H. lia.
    - eexists. split; [done|]. split; [done|]. split; [by intros ?|lia]. }
  destruct (Hrate acc app) as (a & Ha & Ha0 & Ha100).
  destruct (Hrate con acc) as (y & Hy & Hy0 & Hy100).
  exists a, y. unfold mret, Exc_ret in *. by rewrite Ha, Hy.
Qed.

Lemma rates_range_witness :
  ∃ a y : Q,
    acceptance_rate over_accepted = Ok a ∧ yield_rate over_accepted = Ok y
    ∧ (0 <= y)%Q ∧ (100 < a)%Q.
Proof.
  assert (Hs : "Candidate Status" ∈ columns over_accepted) by compute_done.
  assert (Hd : "Candidate Decision" ∈ columns over_accepted) by compute_done.
  destruct (rates_range over_accepted Hs Hd) as (a & y & Ha & Hy & _ & Hy0 & Ha100 & _).
  exists a, y. split; [exact Ha|]. split; [exact Hy|]. split; [exact Hy0|].
  apply Ha100. split; vm_compute; lia.
Defined.

(** * The year selection *)

Lemma elem_of_unique (s : list value) (x : value) : x ∈ unique s ↔ x ∈ s.
Proof. unfold unique. by rewrite elem_of_reverse, elem_of_remove_dups, elem_of_reverse. Qed.

Lemma NoDup_unique (s : list value) : NoDup (unique s).
Proof. unfold unique. rewrite reverse_Permutation. apply NoDup_remove_dups. Qed.

#[local] Instance value_le_total : Total value_le.
Proof.
  intros a b. unfold value_le, value_leb.
  destruct a, b; cbn [kind_rank];
    try (left; exact I); try (right; exact I).
  - destruct (String.leb_total s s0) as [H|H]; rewrite H; [by left|by right].
  - destruct (Z.leb_spec z z0); [by left|]. right. apply Is_true_true, Z.leb_le. lia.
  - destruct (Z.leb_spec ns ns0); [by left|]. right. apply Is_true_true, Z.leb_le. lia.
Qed.

Lemma value_le_Int (a b : Z) : value_le (Int a) (Int b) ↔ a ≤ b.
Proof. unfold value_le, value_leb. rewrite Is_true_true. apply Z.leb_le. Qed.

(** On integers [value_le] is transitive, so a locally sorted list of
    integers is sorted throughout. *)
Lemma Sorted_int_StronglySorted (l : list value) :
  Forall (fun v => is_int v) l → Sorted value_le l → StronglySorted value_le l.
Proof.
  induction l as [|x l IH]; intros Hint Hs; [constructor|].
  inversion_clear Hint as [|? ? Hx Hl]. inversion_clear Hs as [|? ? Hs' Hhd].
  specialize (IH Hl Hs'). constructor; [done|].
  destruct l as [|y l]; [constructor|].
  inversion_clear Hhd as [|? ? Hxy]. constructor; [done|].
  apply StronglySorted_inv in IH as [_ Hall].
  inversion_clear Hl as [|? ? Hy Hl'].
  apply Forall_forall. intros z Hz.
  rewrite Forall_forall in Hall, Hl'. specialize (Hall z Hz). specialize (Hl' z Hz).
  destruct x, y, z; try done. apply value_le_Int. apply value_le_Int in Hxy, Hall. lia.
Qed.

Lemma year_options_ok df :
  "Entering Year" ∈ columns df →
  year_options df = Ok (merge_sort value_le (unique (column df "Entering Year"))).
Proof. intros Hy. unfold year_options. by rewrite (getitem_ok _ _ Hy). Qed.

Lemma default_years_ok df :
  "Entering Year" ∈ columns df →
  default_years df
  = Ok (last3 (merge_sort value_le (unique (column df "Entering Year")))).
Proof. intros Hy. unfold default_years. by rewrite (getitem_ok _ _ Hy). Qed.

Lemma elem_of_options df (x : value) :
  x ∈ merge_sort value_le (unique (column df "Entering Year"))
  ↔ ∃ r, r ∈ rows df ∧ year r = x.
Proof.
  rewrite merge_sort_Permutation, elem_of_unique. unfold column.
  rewrite list_elem_of_fmap. split; intros (r & H1 & H2); exists r; by split.
Qed.

(** The default selection of the year filter, on a table whose years are
    integers: the options are the distinct years of the table in
    ascending order; the default is the tail of that list, three years or
    all of them when there are fewer; and every year left out of the
    default is older than every year in it. *)
Theorem default_years_most_recent (df : DataFrame) :
  "Entering Year" ∈ columns df →
  int_column df "Entering Year" →
  ∃ opts ds : list value,
    year_options df = Ok opts ∧ default_years df = Ok ds
    ∧ NoDup opts
    ∧ (∀ y, y ∈ opts ↔ ∃ r, r ∈ rows df ∧ year r = y)
    ∧ StronglySorted value_le opts
    ∧ ds `suffix_of` opts
    ∧ length ds = (length opts `min` 3)%nat
    ∧ (∀ a b, Int a ∈ opts → Int a ∉ ds → Int b ∈ ds → a < b).
Proof.
  intros Hy Hint. eexists _, _.
  split; [by apply year_options_ok|]. split; [by apply default_years_ok|].
  set (opts := merge_sort value_le (unique (column df "Entering Year"))).
  assert (Hnd : NoDup opts).
  { unfold opts. rewrite merge_sort_Permutation. apply NoDup_unique. }
  assert (Hints : Forall (fun v => is_int v) opts).
  { apply Forall_forall. intros v Hv. apply elem_of_options in Hv as (r & Hr & <-).
    unfold int_column in Hint. rewrite Forall_forall in Hint. by apply Hint. }
  assert (Hss : StronglySorted value_le opts).
  { apply Sorted_int_StronglySorted; [done|]. apply Sorted_merge_sort, _. }
  split; [done|]. split; [apply elem_of_options|]. split; [done|].
  unfold last3. split; [apply suffix_drop|].
  split; [rewrite length_drop; lia|].
  intros a b Ha Hna Hb.
  rewrite <- (take_drop (length opts - 3) opts) in Ha, Hnd, Hss.
  apply elem_of_app in Ha as [Ha|Ha]; [|done].
  pose proof (StronglySorted_app_1_elem_of _ _ _ _ _ Hss Ha Hb) as Hle.
  apply value_le_Int in Hle.
  apply NoDup_app in Hnd as (_ & Hdisj & _).
  destruct (decide (a = b)) as [->|Hne]; [|lia].
  exfalso. by apply (Hdisj _ Ha).
Qed.

Lemma default_years_example :
  year_options enrollment_loaded = Ok [Int 2022; Int 2023]
  ∧ default_years enrollment_loaded = Ok [Int 2022; Int 2023].
Proof. by vm_compute. Qed.

Lemma default_years_most_recent_witness :
  ∃ opts ds : list value,
    year_options five_years = Ok opts ∧ default_years five_years = Ok ds
    ∧ length opts = 5%nat ∧ length ds = 3%nat
    ∧ (Int 2020 ∈ opts) ∧ (Int 2020 ∉ ds).
Proof.
  assert (Hy : "Entering Year" ∈ columns five_years) by compute_done.
  assert (Hint : int_column five_years "Entering Year")
    by (unfold int_column; compute_done).
  destruct (default_years_most_recent five_years Hy Hint)
    as (opts & ds & Ho & Hd & _ & Hin & _ & _ & Hlen & Hlt).
  exists opts, ds. split; [exact Ho|]. split; [exact Hd|].
  assert (Hopts : opts = [Int 2019; Int 2020; Int 2021; Int 2022; Int 2023]).
  { vm_compute in Ho. by injection Ho as <-. }
  assert (Hds : ds = [Int 2021; Int 2022; Int 2023]).
  { vm_compute in Hd. by injection Hd as <-. }
  subst opts ds. split; [reflexivity|]. split; [reflexivity|].
  split; [compute_done|compute_done].
Defined.

(** * The filter and the selection *)

Lemma filter_all {A} (Q : A → Prop) `{!∀ x, Decision (Q x)} (l : list A) :
  (∀ x, x ∈ l → Q x) → filter Q l = l.
Proof.
  induction l as [|x l IH]; intros HQ; [done|].
  rewrite filter_cons_True by (apply HQ; constructor).
  f_equal. apply IH. intros y Hy. apply HQ. by constructor.
Qed.



Lemma count_rows_selection (Q : gmap string value → Prop) `{!∀ r, Decision (Q r)}
  (cols : list string) (l : list (gmap string value)) (ys1 ys2 : list value) :
  (∀ y, y ∈ ys1 → y ∉ ys2) →
  count_rows Q (mkDF cols (filter (fun r => year r ∈ (ys1 ++ ys2)%list) l))
  = (count_rows Q (mkDF cols (filter (fun r => year r ∈ ys1) l))
     + count_rows Q (mkDF cols (filter (fun r => year r ∈ ys2) l)))%nat.
Proof.
  intros Hdisj. unfold count_rows. cbn [rows].
  induction l as [|r l IH]; [done|].
  rewrite !filter_cons.
  destruct (decide (year r ∈ ys1)) as [H1|H1];
    destruct (decide (year r ∈ ys2)) as [H2|H2].
  - by destruct (Hdisj _ H1).
  - rewrite decide_True by (apply elem_of_app; by left).
    rewrite !length_filter_cons, IH. lia.
  - rewrite decide_True by (apply elem_of_app; by right).
    rewrite !length_filter_cons, IH. lia.
  - rewrite decide_False; [done|]. intros H'. apply elem_of_app in H' as [?|?]; done.
Qed.

(** The counts of a selection are the sums of the counts of its parts:
    for two selections without a common year, the number of rows and each
    of the four statistics on the rows of both are the sums of those on
    the rows of each. *)
Theorem totals_add_over_years (df : DataFrame) (ys1 ys2 : list value) :
  "Entering Year" ∈ columns df →
  "Candidate Status" ∈ columns df →
  "Candidate Decision" ∈ columns df →
  (∀ y, y ∈ ys1 → y ∉ ys2) →
  ∃ (f1 f2 f : DataFrame) (i1 i2 a1 a2 c1 c2 k1 k2 : nat),
    filtered_df df ys1 = Ok f1 ∧ filtered_df df ys2 = Ok f2
    ∧ filtered_df df (ys1 ++ ys2)%list = Ok f
    ∧ len f = (len f1 + len f2)%nat
    ∧ total_inquiries f1 = Ok i1 ∧ total_inquiries f2 = Ok i2
    ∧ total_inquiries f = Ok (i1 + i2)%nat
    ∧ total_applications f1 = Ok a1 ∧ total_applications f2 = Ok a2
    ∧ total_applications f = Ok (a1 + a2)%nat
    ∧ total_accepted f1 = Ok c1 ∧ total_accepted f2 = Ok c2
    ∧ total_accepted f = Ok (c1 + c2)%nat
    ∧ total_contracts f1 = Ok k1 ∧ total_contracts f2 = Ok k2
    ∧ total_contracts f = Ok (k1 + k2)%nat.
Proof.
  intros Hy Hs Hd Hdisj.
  set (f1 := mkDF (columns df) (filter (fun r => year r ∈ ys1) (rows df))).
  set (f2 := mkDF (columns df) (filter (fun r => year r ∈ ys2) (rows df))).
  set (f := mkDF (columns df) (filter (fun r => year r ∈ (ys1 ++ ys2)%list) (rows df))).
  exists f1, f2, f.
  exists (count_rows (fun r => status r = Str "Inquiry") f1),
    (count_rows (fun r => status r = Str "Inquiry") f2),
    (count_rows (fun r => status r ∈ applied_statuses) f1),
    (count_rows (fun r => status r ∈ applied_statuses) f2),
    (count_rows (fun r => decision r = Str "Accepted") f1),
    (count_rows (fun r => decision r = Str "Accepted") f2),
    (count_rows (fun r => status r = Str "Contract") f1),
    (count_rows (fun r => status r = Str "Contract") f2).
  split; [by apply filtered_df_ok|]. split; [by apply filtered_df_ok|].
  split; [by apply filtered_df_ok|].
  split.
  { pose proof (count_rows_selection (fun _ => True) (columns df) (rows df) ys1 ys2 Hdisj)
      as H. unfold count_rows in H. cbn [rows] in H.
    repeat rewrite (filter_all (fun _ => True)) in H by done. exact H. }
  rewrite !total_inquiries_ok, !total_applications_ok, !total_accepted_ok,
    !total_contracts_ok by done.
  unfold f, f1, f2. rewrite !count_rows_selection by done.
  repeat split.
Qed.

Lemma totals_add_over_years_witness :
  ∃ (f1 f2 f : DataFrame) (i1 i2 : nat),
    filtered_df enrollment_loaded [Int 2022] = Ok f1
    ∧ filtered_df enrollment_loaded [Int 2023] = Ok f2
    ∧ filtered_df enrollment_loaded [Int 2022; Int 2023] = Ok f
    ∧ len f = (len f1 + len f2)%nat
    ∧ total_inquiries f1 = Ok i1 ∧ total_inquiries f2 = Ok i2
    ∧ total_inquiries f = Ok (i1 + i2)%nat.
Proof.
  assert (Hy : "Entering Year" ∈ columns enrollment_loaded) by compute_done.
  assert (Hs : "Candidate Status" ∈ columns enrollment_loaded) by compute_done.
  assert (Hd : "Candidate Decision" ∈ columns enrollment_loaded) by compute_done.
  assert (Hdisj : ∀ y, y ∈ [Int 2022] → y ∉ [Int 2023]).
  { intros y Hy1 Hy2. apply list_elem_of_singleton in Hy1, Hy2. congruence. }
  destruct (totals_add_over_years enrollment_loaded [Int 2022] [Int 2023] Hy Hs Hd Hdisj)
    as (f1 & f2 & f & i1 & i2 & _ & _ & _ & _ & _ & _ & H1 & H2 & H3 & H4 & H5 & H6 & H7 & _).
  exists f1, f2, f, i1, i2. repeat split; assumption.
Defined.

(** * The order of labels *)

Lemma string_compare_trans (s1 s2 s3 : string) :
  String.compare s1 s2 ≠ Gt → String.compare s2 s3 ≠ Gt → String.compare s1 s3 ≠ Gt.
Proof.
  revert s2 s3. induction s1 as [|c1 s1 IH]; intros [|c2 s2] [|c3 s3]; cbn; try done.
  unfold Ascii.compare.
  destruct (N.compare_spec (Ascii.N_of_ascii c1) (Ascii.N_of_ascii c2)) as [H12|H12|H12];
    [| |done];
    (destruct (N.compare_spec (Ascii.N_of_ascii c2) (Ascii.N_of_ascii c3)) as [H23|H23|H23];
     [| |done]);
    destruct (N.compare_spec (Ascii.N_of_ascii c1) (Ascii.N_of_ascii c3)) as [H13|H13|H13];
    try done; try lia.
  apply IH.
Qed.

Lemma string_leb_trans (s1 s2 s3 : string) :
  String.leb s1 s2 = true → String.leb s2 s3 = true → String.leb s1 s3 = true.
Proof.
  unfold String.leb. intros H12 H23.
  pose proof (string_compare_trans s1 s2 s3) as Ht.
  destruct (String.compare s1 s2); [| |done];
    (destruct (String.compare s2 s3); [| |done]);
    destruct (String.compare s1 s3); try done; by exfalso; apply Ht.
Qed.

#[local] Instance value_le_trans : Transitive value_le.
Proof.
  intros a b c. unfold value_le, value_leb. rewrite !Is_true_true.
  destruct a, b, c; cbn [kind_rank]; try done; try (rewrite !Z.leb_le; lia).
  apply string_leb_trans.
Qed.

#[local] Instance value_le_antisym : AntiSymm eq value_le.
Proof.
  intros a b. unfold value_le, value_leb. rewrite !Is_true_true.
  destruct a, b; cbn [kind_rank]; try done.
  - intros H1 H2. f_equal. by apply String.leb_antisym.
  - rewrite !Z.leb_le. intros. f_equal. lia.
  - rewrite !Z.leb_le. intros. f_equal. lia.
Qed.

#[local] Instance key_le_trans {A} : Transitive (@key_le A).
Proof. intros a b c. unfold key_le. apply value_le_trans. Qed.

#[local] Instance key_le_total {A} : Total (@key_le A).
Proof. intros a b. unfold key_le. apply value_le_total. Qed.

Lemma sorted_labels_sorted (s : list value) : StronglySorted value_le (sorted_labels s).
Proof. unfold sorted_labels. apply (StronglySorted_merge_sort value_le). Qed.

(** A table that is sorted by key, with each key once, is left as it is
    by a sort on the key. *)
Lemma merge_sort_sorted_keys {A} (t : list (value * A)) :
  StronglySorted key_le t → NoDup t.*1 → merge_sort key_le t = t.
Proof.
  intros Hs Hnd. apply (StronglySorted_unique_strong key_le).
  - intros x1 x2 H1 H2 H12 H21.
    assert (x1.1 = x2.1) as Hk by (by apply (anti_symm value_le)).
    rewrite merge_sort_Permutation in H1.
    destruct x1 as [k1 a1], x2 as [k2 a2]. cbn in Hk. subst k2.
    f_equal.
    clear Hs H12 H21. induction t as [|[k a] t IH]; [by apply elem_of_nil in H1|].
    rewrite fmap_cons in Hnd. apply NoDup_cons in Hnd as [Hnotin Hnd'].
    apply elem_of_cons in H1 as [H1|H1]; apply elem_of_cons in H2 as [H2|H2].
    + congruence.
    + exfalso. apply Hnotin. injection H1 as <- <-.
      apply list_elem_of_fmap. by exists (k1, a2).
    + exfalso. apply Hnotin. injection H2 as <- <-.
      apply list_elem_of_fmap. by exists (k1, a1).
    + by apply IH.
  - apply (StronglySorted_merge_sort key_le).
  - done.
  - apply merge_sort_Permutation.
Qed.

Lemma StronglySorted_fmap_key {A} (h : value → A) (l : list value) :
  StronglySorted value_le l → StronglySorted key_le ((fun k => (k, h k)) <$> l).
Proof.
  induction 1 as [|x l Hl IH Hall]; [constructor|].
  rewrite fmap_cons. constructor; [done|].
  rewrite Forall_fmap. eapply Forall_impl; [exact Hall|]. by intros y Hy.
Qed.

Lemma groupby_size_sorted (keys : list value) :
  merge_sort key_le (groupby_size keys) = groupby_size keys.
Proof.
  unfold groupby_size. apply merge_sort_sorted_keys.
  - apply StronglySorted_fmap_key, sorted_labels_sorted.
  - rewrite <- list_fmap_compose. 
    change (fst ∘ _) with (@id value). rewrite list_fmap_id.
    apply sorted_labels_NoDup.
Qed.

(** * Frequency tables *)

Lemma value_counts_Permutation (s : list value) :
  value_counts s
  ≡ₚ (fun k => (k, count_of k s)) <$> remove_dups (filter (fun v => notna v) s).
Proof. unfold value_counts. apply merge_sort_Permutation. Qed.

Lemma value_counts_keys (s : list value) :
  (value_counts s).*1 ≡ₚ remove_dups (filter (fun v => notna v) s).
Proof.
  rewrite value_counts_Permutation, <- list_fmap_compose.
  change (fst ∘ _) with (@id value). by rewrite list_fmap_id.
Qed.

Lemma count_of_pos (v : value) (s : list value) : (0 < count_of v s)%nat ↔ v ∈ s.
Proof.
  unfold count_of. split.
  - intros Hpos. destruct (filter (fun x => x = v) s) as [|x l] eqn:Hf; [cbn in Hpos; lia|].
    assert (x ∈ filter (fun x => x = v) s) as Hx by (rewrite Hf; constructor).
    apply list_elem_of_filter in Hx as [-> Hx]. done.
  - intros Hin.
    assert (v ∈ filter (fun x => x = v) s) as Hx by (by apply list_elem_of_filter).
    destruct (filter (fun x => x = v) s); [by apply elem_of_nil in Hx|cbn; lia].
Qed.

Lemma value_counts_elem (s : list value) (k : value) (n : nat) :
  (k, n) ∈ value_counts s ↔ notna k ∧ (0 < n)%nat ∧ n = count_of k s.
Proof.
  rewrite value_counts_Permutation, list_elem_of_fmap. split.
  - intros (k' & [= -> ->] & Hk).
    apply elem_of_remove_dups, (list_elem_of_filter (fun v => notna v)) in Hk as [Hn Hk].
    split; [done|]. split; [by apply count_of_pos|done].
  - intros (Hn & Hpos & ->). exists k. split; [done|].
    apply elem_of_remove_dups, (list_elem_of_filter (fun v => notna v)).
    split; [done|]. by apply count_of_pos.
Qed.

#[local] Instance count_ge_trans : Transitive count_ge.
Proof. intros a b c. unfold count_ge. lia. Qed.

#[local] Instance count_ge_total : Total count_ge.
Proof. intros a b. unfold count_ge. lia. Qed.

Lemma value_counts_sum (s : list value) :
  sum_list (value_counts s).*2 = length (filter (fun v => notna v) s).
Proof.
  unfold sum_list. rewrite value_counts_Permutation. fold (@sum_list).
  rewrite <- list_fmap_compose.
  change (snd ∘ _) with (fun k : value => length (filter (fun x => id x = k) s)).
  rewrite sum_counts_by_label by apply NoDup_remove_dups.
  transitivity (length (filter (fun x => notna x ∧ x ∈ s) s)).
  { f_equal. apply list_filter_iff. intros x. unfold id.
    rewrite elem_of_remove_dups. apply (list_elem_of_filter (fun v => notna v)). }
  f_equal. clear. 
  assert (∀ l : list value, (∀ x, x ∈ l → x ∈ s) →
     filter (fun x => notna x ∧ x ∈ s) l = filter (fun v => notna v) l) as H.
  { induction l as [|x l IH]; intros Hl; [done|].
    rewrite !filter_cons, IH by (intros y Hy; apply Hl; by constructor).
    assert (x ∈ s) by (apply Hl; constructor).
    destruct (decide (notna x)).
    - by rewrite decide_True.
    - rewrite decide_False; [done|]. by intros [? _]. }
  by apply H.
Qed.

Lemma value_counts_frequency (df : DataFrame) (c : string) :
  frequency_table df c (value_counts (column df c)).
Proof.
  unfold frequency_table.
  split; [rewrite value_counts_keys; apply NoDup_remove_dups|].
  split.
  { intros k n. rewrite value_counts_elem. unfold column.
    by rewrite count_of_fmap. }
  split; [apply StronglySorted_merge_sort; apply _|].
  rewrite value_counts_sum. unfold column, count_rows.
  by rewrite (length_filter_fmap (fun r => cell r c) (fun v => notna v)).
Qed.

(** The three demographic breakdowns are frequency tables of their
    columns: every present value is listed once with the number of rows
    that hold it, a missing cell is counted nowhere, the most frequent
    value comes first, and the counts add up to the rows that have a
    value. *)
Theorem demographic_distributions (fdf : DataFrame) :
  "Gender" ∈ columns fdf →
  "International" ∈ columns fdf →
  "Financial Aid" ∈ columns fdf →
  ∃ g i f : list (value * nat),
    gender_dist fdf = Ok g ∧ intl_dist fdf = Ok i ∧ fa_dist fdf = Ok f
    ∧ frequency_table fdf "Gender" g
    ∧ frequency_table fdf "International" i
    ∧ frequency_table fdf "Financial Aid" f.
Proof.
  intros Hg Hi Hf. unfold gender_dist, intl_dist, fa_dist.
  rewrite (getitem_ok _ _ Hg), (getitem_ok _ _ Hi), (getitem_ok _ _ Hf).
  eexists _, _, _. split; [done|]. split; [done|]. split; [done|].
  split; [apply (value_counts_frequency fdf "Gender")|].
  split; [apply (value_counts_frequency fdf "International")|].
  apply (value_counts_frequency fdf "Financial Aid").
Qed.

Lemma demographic_distributions_example :
  gender_dist gender_sample = Ok [(Str "F", 2%nat); (Str "M", 1%nat)].
Proof. by vm_compute. Qed.

Lemma demographic_distributions_witness :
  ∃ g : list (value * nat),
    gender_dist gender_sample = Ok g
    ∧ frequency_table gender_sample "Gender" g
    ∧ (Str "F", 2%nat) ∈ g.
Proof.
  assert (Hg : "Gender" ∈ columns gender_sample) by compute_done.
  assert (Hi : "International" ∈ columns gender_sample) by compute_done.
  assert (Hf : "Financial Aid" ∈ columns gender_sample) by compute_done.
  destruct (demographic_distributions gender_sample Hg Hi Hf)
    as (g & i & f & H1 & _ & _ & Hfreq & _).
  exists g. split; [exact H1|]. split; [exact Hfreq|].
  destruct Hfreq as (_ & Hel & _). apply Hel.
  split; [exact I|]. split; vm_compute; [lia|reflexivity].
Defined.

(** * Inquiries by grade *)

Lemma category_code_Some (cats : list value) (v : value) :
  is_Some (category_code cats v) ↔ v ∈ cats.
Proof.
  unfold category_code. split.
  - intros [i Hi]. destruct (list_find _ _) as [[j x]|] eqn:Hf; [|done].
    apply list_find_Some in Hf as (Hl & -> & _). by eapply list_elem_of_lookup_2.
  - intros Hin. destruct (list_find_elem_of (fun c => c = v) cats v Hin eq_refl)
      as [[i x] Hf]. rewrite Hf. by eexists.
Qed.


#[local] Instance code_le_trans {A} cats asc : Transitive (@code_le A cats asc).
Proof. intros a b c. unfold code_le. destruct asc; lia. Qed.

#[local] Instance code_le_total {A} cats asc : Total (@code_le A cats asc).
Proof. intros a b. unfold code_le. destruct asc; lia. Qed.



Lemma grade_inquiries_ok (fdf : DataFrame) :
  "Candidate Status" ∈ columns fdf →
  "Entering Grade" ∈ columns fdf →
  grade_inquiries fdf
  = Ok (sort_by_category (Str <$> grade_order) true
          (value_counts (grade <$> filter (fun r => status r = Str "Inquiry") (rows fdf)))).
Proof.
  intros Hs Hg. unfold grade_inquiries. rewrite (getitem_ok _ _ Hs).
  cbn [mbind Exc_bind]. rewrite mask_eq_str_frame.
  by rewrite getitem_ok.
Qed.

Lemma sum_list_app (l k : list nat) :
  sum_list (l ++ k) = (sum_list l + sum_list k)%nat.
Proof. apply sum_list_with_app. Qed.

Lemma sum_list_Permutation (l k : list nat) : l ≡ₚ k → sum_list l = sum_list k.
Proof. unfold sum_list. by intros ->. Qed.

Lemma Ok_inj {A} (a b : A) : Ok a = Ok b → a = b.
Proof. by intros [= ->]. Qed.

(** The known rows of a table sorted by category are the rows whose
    label is a category. *)
Lemma sort_by_category_known {A} (cats : list value) (t : list (value * A))
  (k : value) (a : A) :
  k ∈ cats → k ≠ NaN →
  (k, a) ∈ sort_by_category cats true t ↔ (k, a) ∈ t.
Proof.
  intros Hk Hnan. unfold sort_by_category.
  rewrite elem_of_app, merge_sort_Permutation, list_elem_of_filter, category_code_Some.
  cbn [fst]. split.
  - intros [[_ ?]|Hin]; [done|].
    apply list_elem_of_fmap in Hin as (p & [= -> _] & _). done.
  - intros Hin. left. by split.
Qed.

(** Sorting by category keeps the counts. *)
Lemma sort_by_category_sum (cats : list value) (t : list (value * nat)) :
  sum_list (sort_by_category cats true t).*2 = sum_list t.*2.
Proof.
  unfold sort_by_category. rewrite fmap_app, sum_list_app.
  rewrite (sum_list_Permutation _
             (filter (fun p : value * nat => is_Some (category_code cats p.1)) t).*2)
    by (by rewrite merge_sort_Permutation).
  rewrite <- (list_fmap_compose (fun p : value * nat => (NaN, p.2)) snd).
  change (snd ∘ (fun p : value * nat => (NaN, p.2))) with (@snd value nat).
  rewrite <- sum_list_app, <- fmap_app.
  apply sum_list_Permutation. by rewrite filter_app_complement.
Qed.

Lemma grade_count (fdf : DataFrame) (k : value) :
  count_of k (grade <$> filter (fun r => status r = Str "Inquiry") (rows fdf))
  = count_rows (fun r => status r = Str "Inquiry" ∧ grade r = k) fdf.
Proof.
  rewrite count_of_fmap. unfold count_rows.
  rewrite list_filter_filter. f_equal. apply list_filter_iff. tauto.
Qed.

(** A canonical grade is in the grade table exactly with the number of
    its inquiries, when it has one. *)
Lemma grade_inquiries_elem (fdf : DataFrame) (t : list (value * nat))
  (g : string) (n : nat) :
  grade_inquiries fdf = Ok t → g ∈ grade_order →
  (Str g, n) ∈ t ↔
  (0 < n)%nat
  ∧ n = count_rows (fun r => status r = Str "Inquiry" ∧ grade r = Str g) fdf.
Proof.
  intros Ht Hg.
  assert (Hs : "Candidate Status" ∈ columns fdf).
  { unfold grade_inquiries in Ht.
    destruct (getitem fdf "Candidate Status") eqn:E; [|done].
    by apply getitem_ok_inv in E. }
  assert (Hgr : "Entering Grade" ∈ columns fdf).
  { unfold grade_inquiries in Ht. rewrite (getitem_ok _ _ Hs) in Ht.
    cbn [mbind Exc_bind] in Ht.
    destruct (getitem _ "Entering Grade") eqn:E; [|done].
    by apply getitem_ok_inv in E. }
  rewrite grade_inquiries_ok in Ht by done. apply Ok_inj in Ht as <-.
  rewrite sort_by_category_known; [|by apply list_elem_of_fmap_2|done].
  rewrite value_counts_elem, grade_count. cbn. tauto.
Qed.

(** The counts of the grade table add up to the inquiries that have a
    grade. *)
Lemma grade_inquiries_sum (fdf : DataFrame) (t : list (value * nat)) :
  grade_inquiries fdf = Ok t →
  sum_list t.*2
  = count_rows (fun r => status r = Str "Inquiry" ∧ notna (grade r)) fdf.
Proof.
  intros Ht.
  assert (Hs : "Candidate Status" ∈ columns fdf).
  { unfold grade_inquiries in Ht.
    destruct (getitem fdf "Candidate Status") eqn:E; [|done].
    by apply getitem_ok_inv in E. }
  assert (Hgr : "Entering Grade" ∈ columns fdf).
  { unfold grade_inquiries in Ht. rewrite (getitem_ok _ _ Hs) in Ht.
    cbn [mbind Exc_bind] in Ht.
    destruct (getitem _ "Entering Grade") eqn:E; [|done].
    by apply getitem_ok_inv in E. }
  rewrite grade_inquiries_ok in Ht by done. apply Ok_inj in Ht as <-.
  rewrite sort_by_category_sum, value_counts_sum. unfold count_rows.
  rewrite (length_filter_fmap grade (fun v => notna v)), list_filter_filter.
  f_equal. apply list_filter_iff. tauto.
Qed.


Lemma grade_inquiries_example :
  grade_inquiries grade_inquiry_sample
  = Ok [(Str "Grade 1", 1%nat); (Str "Grade 2", 2%nat); (NaN, 1%nat)].
Proof. by vm_compute. Qed.


(** * The inquiry charts against each other *)

Lemma length_filter_and_eq {A} (Q1 Q2 : A → Prop) `{!∀ x, Decision (Q1 x)}
  `{!∀ x, Decision (Q2 x)} (l : list A) :
  (length (filter (fun x => Q1 x ∧ Q2 x) l) ≤ length (filter Q1 l))%nat
  ∧ (length (filter (fun x => Q1 x ∧ Q2 x) l) = length (filter Q1 l)
     ↔ ∀ x, x ∈ l → Q1 x → Q2 x).
Proof.
  induction l as [|x l [IHle IHeq]].
  { split; [done|]. split; [|done]. intros _ x Hx. by apply elem_of_nil in Hx. }
  rewrite !length_filter_cons.
  destruct (decide (Q1 x)) as [H1|H1]; destruct (decide (Q2 x)) as [H2|H2].
  - rewrite decide_True by done. split; [lia|]. split.
    + intros Heq y Hy HQ. apply elem_of_cons in Hy as [->|Hy]; [done|].
      apply IHeq; [lia|done..].
    + intros Hall. f_equal. apply IHeq. intros y Hy. apply Hall. by constructor.
  - rewrite decide_False by (by intros [_ ?]). split; [lia|]. split; [lia|].
    intros Hall. destruct H2. apply Hall; [constructor|done].
  - rewrite decide_False by (by intros [? _]). split; [lia|]. split.
    + intros Heq y Hy HQ. apply elem_of_cons in Hy as [->|Hy]; [done|].
      apply IHeq; [lia|done..].
    + intros Hall. cbn. apply IHeq. intros y Hy. apply Hall. by constructor.
  - rewrite decide_False by (by intros [? _]). split; [lia|]. split.
    + intros Heq y Hy HQ. apply elem_of_cons in Hy as [->|Hy]; [done|].
      apply IHeq; [lia|done..].
    + intros Hall. cbn. apply IHeq. intros y Hy. apply Hall. by constructor.
Qed.

Lemma monthly_inquiries_sum (P : DateParser) (fdf : DataFrame) :
  sum_list
    ((fun m => count_rows (fun r => status r = Str "Inquiry"
                                    ∧ inquiry_month P r = Some m) fdf)
     <$> rev month_order)
  = count_rows (fun r => status r = Str "Inquiry" ∧ is_Some (inquiry_month P r)) fdf.
Proof.
  unfold count_rows.
  transitivity (sum_list
    ((fun o => length (filter (fun r => inquiry_month P r = o)
                 (filter (fun r => status r = Str "Inquiry") (rows fdf))))
     <$> (Some <$> rev month_order))).
  { rewrite <- list_fmap_compose. f_equal. apply list_fmap_ext. intros _ m _. cbn.
    rewrite list_filter_filter. f_equal. apply list_filter_iff. tauto. }
  rewrite sum_counts_by_label by (by compute_done).
  rewrite list_filter_filter. f_equal. apply list_filter_iff. intros r.
  split; [intros [Hm ?]; split; [done|] | intros [? Hm]; split; [|done]].
  - apply list_elem_of_fmap in Hm as (m & -> & _). by eexists.
  - destruct Hm as [m Hm]. rewrite Hm. apply list_elem_of_fmap_2.
    apply list_elem_of_In, (proj1 (in_rev _ _)), list_elem_of_In.
    unfold inquiry_month in Hm. destruct (coerce _ _); try done.
    injection Hm as <-. apply strftime_B_month_order.
Qed.

Lemma count_rows_pos (Q : gmap string value → Prop) `{!∀ r, Decision (Q r)} df :
  (0 < count_rows Q df)%nat → ∃ r, r ∈ rows df ∧ Q r.
Proof.
  unfold count_rows. intros Hpos.
  destruct (filter Q (rows df)) as [|r l] eqn:Hf; [cbn in Hpos; lia|].
  assert (r ∈ filter Q (rows df)) as Hr by (rewrite Hf; constructor).
  apply list_elem_of_filter in Hr as [? ?]. by exists r.
Qed.

Lemma crosstab_cell_count (fdf : DataFrame) (g s : value) :
  (∃ r, r ∈ rows fdf ∧ grade r = g ∧ status r = s) → notna g → notna s →
  ct_cell (crosstab (grade <$> rows fdf) (status <$> rows fdf)) g s
  = Some (count_rows (fun r => grade r = g ∧ status r = s) fdf).
Proof.
  intros (r & Hr & Hgr & Hsr) Hng Hns.
  assert (Hp : (g, s) ∈ filter both_present (zip (grade <$> rows fdf) (status <$> rows fdf))).
  { apply tabulated_pair. exists r. cbn [fst snd]. subst. done. }
  rewrite ct_cell_crosstab.
  - f_equal. unfold count_rows.
    rewrite zip_columns, list_filter_filter, length_filter_fmap. f_equal.
    apply list_filter_iff. intros r'. unfold both_present. cbn [fst snd]. split.
    + intros [[= H1 H2] _]. by split.
    + intros [H1 H2]. rewrite H1, H2. done.
  - cbn [crosstab ct_index]. apply sorted_labels_elem. split; [done|].
    apply list_elem_of_fmap. by exists (g, s).
  - cbn [crosstab ct_columns]. apply sorted_labels_elem. split; [done|].
    apply list_elem_of_fmap. by exists (g, s).
Qed.

(** The inquiry charts are consistent with the headline number and with
    each other: the grade breakdown and the month breakdown each add up
    to at most the number of inquiries, to exactly that number when no
    inquiry lacks a grade, respectively a date; and the count the grade
    breakdown shows for a canonical grade is the Inquiry cell of that
    grade in the status-by-grade table. *)
Theorem inquiry_charts_agree (P : DateParser) (fdf : DataFrame) :
  "Candidate Status" ∈ columns fdf →
  "Entering Grade" ∈ columns fdf →
  "Inquiry Date Submitted" ∈ columns fdf →
  ∃ (total : nat) (gi mi : list (value * nat)) (ct : CrossTab),
    total_inquiries fdf = Ok total
    ∧ grade_inquiries fdf = Ok gi
    ∧ monthly_inquiries P fdf = Ok mi
    ∧ status_by_grade fdf = Ok ct
    ∧ (sum_list gi.*2 ≤ total)%nat
    ∧ (sum_list gi.*2 = total ↔
       ∀ r, r ∈ rows fdf → status r = Str "Inquiry" → notna (grade r))
    ∧ (sum_list mi.*2 ≤ total)%nat
    ∧ (sum_list mi.*2 = total ↔
       ∀ r, r ∈ rows fdf → status r = Str "Inquiry" → is_Some (inquiry_month P r))
    ∧ (∀ g n, g ∈ grade_order → (Str g, n) ∈ gi →
         ct_cell ct (Str g) (Str "Inquiry") = Some n).
Proof.
  intros Hs Hg Hd.
  pose proof (grade_inquiries_ok fdf Hs Hg) as Hgi.
  set (gi := sort_by_category _ _ _) in Hgi.
  pose proof (grade_inquiries_sum fdf gi Hgi) as Hsum.
  exists (count_rows (fun r => status r = Str "Inquiry") fdf), gi.
  eexists _, _. split; [by apply total_inquiries_ok|]. split; [done|].
  split; [by apply monthly_inquiries_ok|]. split; [by apply status_by_grade_ok|].
  rewrite Hsum, <- list_fmap_compose.
  change (snd ∘ _) with
    (fun m => count_rows (fun r => status r = Str "Inquiry"
                                   ∧ inquiry_month P r = Some m) fdf).
  rewrite monthly_inquiries_sum. unfold count_rows.
  pose proof (length_filter_and_eq (fun r => status r = Str "Inquiry")
                (fun r => notna (grade r)) (rows fdf)) as [H1 H2].
  pose proof (length_filter_and_eq (fun r => status r = Str "Inquiry")
                (fun r => is_Some (inquiry_month P r)) (rows fdf)) as [H3 H4].
  split; [done|]. split; [done|]. split; [done|]. split; [done|].
  intros g n Hgo Hin. apply (grade_inquiries_elem fdf gi g n Hgi Hgo) in Hin as [Hpos ->].
  apply count_rows_pos in Hpos as (r & Hr & Hsr & Hgr).
  rewrite crosstab_cell_count; [|by exists r|done..].
  f_equal. unfold count_rows. f_equal. apply list_filter_iff. tauto.
Qed.

Lemma inquiry_charts_agree_witness :
  ∃ (total : nat) (gi mi : list (value * nat)) (ct : CrossTab),
    total_inquiries grade_inquiry_sample = Ok total
    ∧ grade_inquiries grade_inquiry_sample = Ok gi
    ∧ status_by_grade grade_inquiry_sample = Ok ct
    ∧ (sum_list gi.*2 ≤ total)%nat
    ∧ ct_cell ct (Str "Grade 2") (Str "Inquiry") = Some 2%nat.
Proof.
  assert (Hs : "Candidate Status" ∈ columns grade_inquiry_sample) by compute_done.
  assert (Hg : "Entering Grade" ∈ columns grade_inquiry_sample) by compute_done.
  assert (Hd : "Inquiry Date Submitted" ∈ columns grade_inquiry_sample) by compute_done.
  destruct (inquiry_charts_agree one_date_parser grade_inquiry_sample Hs Hg Hd)
    as (total & gi & mi & ct & Ht & Hgi & _ & Hct & Hle & _ & _ & _ & Hcell).
  exists total, gi, mi, ct. split; [exact Ht|]. split; [exact Hgi|].
  split; [exact Hct|]. split; [exact Hle|].
  apply Hcell; [compute_done|].
  rewrite grade_inquiries_example in Hgi. injection Hgi as <-. compute_done.
Defined.

(** * The count axis of the month chart *)






(** * The timeline of applications *)

Lemma month_cells (l : list (gmap string value)) :
  strftime strftime_Ym ((fun r => cell r "Application Date Submitted") <$> l)
  = (fun r => match application_month r with Some m => Str m | None => NaN end) <$> l.
Proof.
  unfold strftime. rewrite <- list_fmap_compose. apply list_fmap_ext.
  intros _ r _. unfold application_month. cbn.
  by destruct (cell r "Application Date Submitted").
Qed.

Lemma monthly_apps_ok (fdf : DataFrame) :
  "Application Date Submitted" ∈ columns fdf →
  datetime_column fdf "Application Date Submitted" →
  monthly_apps fdf
  = Ok (setitem fdf "Application Month"
          ((fun r => match application_month r with Some m => Str m | None => NaN end)
           <$> rows fdf),
        Some (groupby_size
                ((fun r => match application_month r with Some m => Str m | None => NaN end)
                 <$> rows fdf))).
Proof.
  intros Ha Hdt. unfold monthly_apps. rewrite decide_True by done.
  rewrite (getitem_ok _ _ Ha). cbn [mbind Exc_bind]. unfold dt.
  rewrite datetime_column_forallb by done. cbn [mbind Exc_bind].
  rewrite month_cells.
  rewrite getitem_setitem_same by (by rewrite length_fmap).
  cbn [mbind Exc_bind mret Exc_ret]. by rewrite groupby_size_sorted.
Qed.

Lemma groupby_size_Permutation (keys : list value) :
  groupby_size keys ≡ₚ value_counts keys.
Proof.
  rewrite value_counts_Permutation. unfold groupby_size, sorted_labels.
  by rewrite merge_sort_Permutation.
Qed.

(** The timeline table: one row per month in which an application was
    submitted, labelled "YYYY-MM", each month once, in ascending order
    of the label, with the number of rows submitted in that month; the
    counts add up to the rows that have an application date. *)
Theorem monthly_apps_table (fdf : DataFrame) :
  "Application Date Submitted" ∈ columns fdf →
  datetime_column fdf "Application Date Submitted" →
  ∃ (f1 : DataFrame) (t : list (value * nat)),
    monthly_apps fdf = Ok (f1, Some t)
    ∧ NoDup t.*1
    ∧ StronglySorted key_le t
    ∧ (∀ k n, (k, n) ∈ t ↔
         ∃ m, k = Str m ∧ (0 < n)%nat
              ∧ n = count_rows (fun r => application_month r = Some m) fdf)
    ∧ sum_list t.*2 = count_rows (fun r => is_Some (application_month r)) fdf.
Proof.
  intros Ha Hdt. eexists _, _. split; [by apply monthly_apps_ok|].
  set (M := (fun r => match application_month r with Some m => Str m | None => NaN end)
            <$> rows fdf).
  assert (Hcount : ∀ m, count_of (Str m) M
                        = count_rows (fun r => application_month r = Some m) fdf).
  { intros m. unfold M, count_rows. rewrite count_of_fmap. f_equal.
    apply list_filter_iff. intros r. destruct (application_month r); split; congruence. }
  split; [|split; [|split]].
  - unfold groupby_size. rewrite <- list_fmap_compose.
    change (fst ∘ _) with (@id value). rewrite list_fmap_id. apply sorted_labels_NoDup.
  - unfold groupby_size. apply StronglySorted_fmap_key, sorted_labels_sorted.
  - intros k n. rewrite groupby_size_Permutation, value_counts_elem. split.
    + intros (Hn & Hpos & ->). pose proof Hpos as Hin. apply count_of_pos in Hin.
      unfold M in Hin. apply list_elem_of_fmap in Hin as (r & -> & _).
      destruct (application_month r) as [m|]; [|done].
      exists m. by rewrite <- Hcount.
    + intros (m & -> & Hpos & ->). by rewrite Hcount.
  - unfold sum_list. rewrite groupby_size_Permutation. fold (@sum_list).
    rewrite value_counts_sum. unfold M, count_rows.
    rewrite (length_filter_fmap _ (fun v => notna v)). f_equal.
    apply list_filter_iff. intros r. destruct (application_month r); cbn.
    + split; [by eexists|done].
    + split; [done|]. by intros [? ?].
Qed.

Lemma monthly_apps_example :
  snd <$> monthly_apps timeline_sample
  = Ok (Some [(Str "2022-11", 2%nat); (Str "2023-01", 1%nat); (Str "2023-02", 1%nat)]).
Proof. vm_compute. reflexivity. Qed.

Lemma monthly_apps_table_witness :
  ∃ (f1 : DataFrame) (t : list (value * nat)),
    monthly_apps timeline_sample = Ok (f1, Some t)
    ∧ StronglySorted key_le t
    ∧ sum_list t.*2 = 4%nat.
Proof.
  assert (Ha : "Application Date Submitted" ∈ columns timeline_sample) by compute_done.
  assert (Hdt : datetime_column timeline_sample "Application Date Submitted").
  { unfold datetime_column. compute_done. }
  destruct (monthly_apps_table timeline_sample Ha Hdt) as (f1 & t & Ht & _ & Hs & _ & Hsum).
  exists f1, t. split; [exact Ht|]. split; [exact Hs|].
  rewrite Hsum. vm_compute. reflexivity.
Defined.

(** * Months in order *)

Lemma all_days_spec (f : Z → bool) p doe k :
  all_days f p doe = true → doe ≤ k < doe + Z.pos p → f k = true.
Proof.
  revert doe. induction p as [p IH|p IH|]; intros doe Hc Hk; cbn [all_days] in Hc.
  - apply andb_prop in Hc as [Hc H3]. apply andb_prop in Hc as [H1 H2].
    destruct (decide (k = doe)) as [->|?]; [done|].
    destruct (decide (k < doe + 1 + Z.pos p)).
    + apply (IH (doe + 1)); [done|lia].
    + apply (IH (doe + 1 + Z.pos p)); [done|lia].
  - apply andb_prop in Hc as [H1 H2].
    destruct (decide (k < doe + Z.pos p)).
    + apply (IH doe); [done|lia].
    + apply (IH (doe + Z.pos p)); [done|lia].
  - by replace k with doe by lia.
Qed.

Lemma era_steps : all_days ym_step_ok 146096 0 = true.
Proof. vm_compute. reflexivity. Qed.

Lemma ym_of_doe_mono (a b : Z) :
  0 ≤ a → a ≤ b → b < 146097 → ym_of_doe a ≤ ym_of_doe b.
Proof.
  intros Ha Hab Hb.
  assert (∀ n : nat, a + Z.of_nat n < 146097 → ym_of_doe a ≤ ym_of_doe (a + Z.of_nat n))
    as Hn.
  { induction n as [|n IH]; intros Hlt.
    - replace (a + Z.of_nat 0) with a by lia. lia.
    - etrans; [apply IH; lia|].
      pose proof (all_days_spec ym_step_ok 146096 0 (a + Z.of_nat n) era_steps) as Hs.
      unfold ym_step_ok in Hs. rewrite Z.leb_le in Hs.
      replace (a + Z.of_nat (S n)) with (a + Z.of_nat n + 1) by lia.
      apply Hs. lia. }
  specialize (Hn (Z.to_nat (b - a))).
  replace (a + Z.of_nat (Z.to_nat (b - a))) with b in Hn by lia. apply Hn. lia.
Qed.

Lemma month_index_civil (days : Z) :
  month_index (civil_from_days days)
  = ym_of_doe ((days + 719468) mod 146097) + 4800 * ((days + 719468) / 146097).
Proof.
  unfold month_index, civil_from_days, ym_of_doe. cbn [c_year c_month].
  generalize ((days + 719468) / 146097). intros era.
  generalize ((days + 719468) mod 146097). intros doe.
  cbv zeta.
  set (yoe := (doe - doe / 1460 + doe / 36524 - doe / 146096) / 365).
  set (mp := (5 * (doe - (365 * yoe + yoe / 4 - yoe / 100)) + 2) / 153).
  set (m := if mp <? 10 then mp + 3 else mp - 9).
  destruct (m <=? 2); lia.
Qed.

Lemma month_index_mono (d1 d2 : Z) :
  d1 ≤ d2 → month_index (civil_from_days d1) ≤ month_index (civil_from_days d2).
Proof.
  intros Hle. rewrite !month_index_civil.
  pose proof (Z.div_mod (d1 + 719468) 146097 ltac:(lia)) as E1.
  pose proof (Z.div_mod (d2 + 719468) 146097 ltac:(lia)) as E2.
  pose proof (Z.mod_pos_bound (d1 + 719468) 146097 ltac:(lia)) as B1.
  pose proof (Z.mod_pos_bound (d2 + 719468) 146097 ltac:(lia)) as B2.
  set (e1 := (d1 + 719468) / 146097) in *. set (e2 := (d2 + 719468) / 146097) in *.
  set (r1 := (d1 + 719468) mod 146097) in *. set (r2 := (d2 + 719468) mod 146097) in *.
  assert (Hlo : ym_of_doe 0 = 3) by (vm_compute; reflexivity).
  assert (Hhi : ym_of_doe 146096 = 4802) by (vm_compute; reflexivity).
  pose proof (ym_of_doe_mono 0 r2 ltac:(lia) ltac:(lia) ltac:(lia)) as L2.
  pose proof (ym_of_doe_mono r1 146096 ltac:(lia) ltac:(lia) ltac:(lia)) as U1.
  destruct (decide (e1 = e2)) as [He|He].
  - pose proof (ym_of_doe_mono r1 r2 ltac:(lia) ltac:(lia) ltac:(lia)). lia.
  - assert (e1 < e2) by nia. lia.
Qed.

Lemma datetime64_year (ns : Z) :
  in_datetime64 ns → 1677 ≤ c_year (date_of ns) ≤ 2262.
Proof.
  unfold in_datetime64, date_of. intros [Hlo Hhi].
  assert (-106752 ≤ ns / ns_per_day ≤ 106751) as [Dlo Dhi].
  { unfold ns_per_day. split.
    - change (-106752) with (-9223372036854775807 / 86400000000000).
      apply Z.div_le_mono; lia.
    - change 106751 with (9223372036854775807 / 86400000000000).
      apply Z.div_le_mono; lia. }
  pose proof (month_index_mono _ _ Dlo) as Mlo.
  pose proof (month_index_mono _ _ Dhi) as Mhi.
  change (month_index (civil_from_days (-106752))) with 20133 in Mlo.
  change (month_index (civil_from_days 106751)) with 27148 in Mhi.
  pose proof (c_month_range (ns / ns_per_day)). unfold month_index in *. lia.
Qed.

(** * The order of the month labels *)

Lemma strftime_Ym_format (ns : Z) :
  strftime_Ym ns = format_Ym (c_year (date_of ns)) (c_month (date_of ns)).
Proof. done. Qed.

Lemma digit_code (d : Z) :
  Ascii.N_of_ascii (Ascii.ascii_of_nat (48 + Z.to_nat (d mod 10)))
  = (48 + Z.to_N (d mod 10))%N.
Proof.
  pose proof (Z.mod_pos_bound d 10 ltac:(lia)) as Hb.
  pose proof (Ascii.nat_ascii_embedding (48 + Z.to_nat (d mod 10)) ltac:(lia)) as He.
  unfold Ascii.nat_of_ascii in He.
  apply (f_equal N.of_nat) in He. rewrite N2Nat.id in He. rewrite He. lia.
Qed.

Lemma digit_app (d : Z) (s : string) :
  digit d +:+ s = String (Ascii.ascii_of_nat (48 + Z.to_nat (d mod 10))) s.
Proof. done. Qed.

Lemma leb_digit_lt (a b : Z) (s s' : string) :
  a mod 10 < b mod 10 → String.leb (digit a +:+ s) (digit b +:+ s') = true.
Proof.
  intros Hlt. pose proof (Z.mod_pos_bound a 10 ltac:(lia)).
  rewrite !digit_app. unfold String.leb. cbn [String.compare].
  unfold Ascii.compare. rewrite !digit_code.
  destruct (N.compare_spec (48 + Z.to_N (a mod 10)) (48 + Z.to_N (b mod 10)));
    [lia|done|lia].
Qed.

Lemma leb_digit_eq (a b : Z) (s s' : string) :
  a mod 10 = b mod 10 →
  String.leb (digit a +:+ s) (digit b +:+ s') = String.leb s s'.
Proof.
  intros Heq. rewrite !digit_app. unfold String.leb. cbn [String.compare].
  unfold Ascii.compare. rewrite !digit_code, Heq, N.compare_refl. done.
Qed.

Lemma leb_char_eq (c : Ascii.ascii) (s s' : string) :
  String.leb (String c s) (String c s') = String.leb s s'.
Proof.
  unfold String.leb. cbn [String.compare]. unfold Ascii.compare.
  by rewrite N.compare_refl.
Qed.

Lemma leb_dash (s s' : string) :
  String.leb ("-" +:+ s) ("-" +:+ s') = String.leb s s'.
Proof. apply leb_char_eq. Qed.

Lemma digits_of_year (y : Z) :
  0 ≤ y ≤ 9999 →
  y = 1000 * ((y / 1000) mod 10) + 100 * ((y / 100) mod 10)
      + 10 * ((y / 10) mod 10) + y mod 10.
Proof. intros Hy. Z.to_euclidean_division_equations. lia. Qed.

Lemma digits_of_month (m : Z) :
  0 ≤ m ≤ 99 → m = 10 * ((m / 10) mod 10) + m mod 10.
Proof. intros Hm. Z.to_euclidean_division_equations. lia. Qed.

(** On four-digit years the labels are ordered as the months are. *)
Lemma format_Ym_leb (y m y' m' : Z) :
  0 ≤ y ≤ 9999 → 0 ≤ y' ≤ 9999 → 1 ≤ m ≤ 12 → 1 ≤ m' ≤ 12 →
  12 * y + m ≤ 12 * y' + m' →
  String.leb (format_Ym y m) (format_Ym y' m') = true.
Proof.
  intros Hy Hy' Hm Hm' Hle. unfold format_Ym.
  pose proof (digits_of_year y Hy) as Dy. pose proof (digits_of_year y' Hy') as Dy'.
  pose proof (digits_of_month m ltac:(lia)) as Dm.
  pose proof (digits_of_month m' ltac:(lia)) as Dm'.
  pose proof (Z.mod_pos_bound (y / 1000) 10 ltac:(lia)).
  pose proof (Z.mod_pos_bound (y / 100) 10 ltac:(lia)).
  pose proof (Z.mod_pos_bound (y / 10) 10 ltac:(lia)).
  pose proof (Z.mod_pos_bound y 10 ltac:(lia)).
  pose proof (Z.mod_pos_bound (y' / 1000) 10 ltac:(lia)).
  pose proof (Z.mod_pos_bound (y' / 100) 10 ltac:(lia)).
  pose proof (Z.mod_pos_bound (y' / 10) 10 ltac:(lia)).
  pose proof (Z.mod_pos_bound y' 10 ltac:(lia)).
  pose proof (Z.mod_pos_bound (m / 10) 10 ltac:(lia)).
  pose proof (Z.mod_pos_bound m 10 ltac:(lia)).
  pose proof (Z.mod_pos_bound (m' / 10) 10 ltac:(lia)).
  pose proof (Z.mod_pos_bound m' 10 ltac:(lia)).
  destruct (Z.lt_trichotomy ((y / 1000) mod 10) ((y' / 1000) mod 10)) as [E3|[E3|E3]];
    [by apply leb_digit_lt| |exfalso; lia].
  rewrite leb_digit_eq by done.
  destruct (Z.lt_trichotomy ((y / 100) mod 10) ((y' / 100) mod 10)) as [E2|[E2|E2]];
    [by apply leb_digit_lt| |exfalso; lia].
  rewrite leb_digit_eq by done.
  destruct (Z.lt_trichotomy ((y / 10) mod 10) ((y' / 10) mod 10)) as [E1|[E1|E1]];
    [by apply leb_digit_lt| |exfalso; lia].
  rewrite leb_digit_eq by done.
  destruct (Z.lt_trichotomy (y mod 10) (y' mod 10)) as [E0|[E0|E0]];
    [by apply leb_digit_lt| |exfalso; lia].
  rewrite leb_digit_eq by done.
  assert (y = y') as <- by lia.
  rewrite leb_dash.
  destruct (Z.lt_trichotomy ((m / 10) mod 10) ((m' / 10) mod 10)) as [M1|[M1|M1]];
    [by apply leb_digit_lt| |exfalso; lia].
  rewrite leb_digit_eq by done.
  change (String.leb (digit m +:+ "") (digit m' +:+ "") = true).
  destruct (Z.lt_trichotomy (m mod 10) (m' mod 10)) as [M0|[M0|M0]];
    [by apply leb_digit_lt| |exfalso; lia].
  by rewrite leb_digit_eq.
Qed.

(** The label of a later timestamp is not before the label of an
    earlier one. *)
Lemma strftime_Ym_mono (a b : Z) :
  in_datetime64 a → in_datetime64 b → a ≤ b →
  String.leb (strftime_Ym a) (strftime_Ym b) = true.
Proof.
  intros Ha Hb Hab. rewrite !strftime_Ym_format.
  pose proof (datetime64_year a Ha). pose proof (datetime64_year b Hb).
  apply format_Ym_leb; try lia.
  - apply c_month_range.
  - apply c_month_range.
  - apply (month_index_mono (a / ns_per_day) (b / ns_per_day)).
    apply Z.div_le_mono; [done|done].
Qed.

(** * The timeline in time order *)

Lemma StronglySorted_lookup {A} (R : relation A) (l : list A) (i j : nat) (x y : A) :
  StronglySorted R l → l !! i = Some x → l !! j = Some y → (i < j)%nat → R x y.
Proof.
  intros Hs. revert i j. induction Hs as [|z l Hs IH Hall]; intros i j Hi Hj Hlt.
  - by rewrite lookup_nil in Hi.
  - destruct j as [|j]; [lia|]. cbn in Hj. destruct i as [|i].
    + injection Hi as <-. rewrite Forall_forall in Hall.
      apply Hall. by eapply list_elem_of_lookup_2.
    + cbn in Hi. apply (IH i j); [done|done|lia].
Qed.

(** The rows of the timeline table are in time order: with the
    timestamps [datetime64[ns]] can hold, every application of a month
    listed earlier was submitted before every application of a month
    listed later, so sorting the "YYYY-MM" labels as text sorts the
    months by date. *)
Theorem timeline_chronological (fdf : DataFrame) :
  "Application Date Submitted" ∈ columns fdf →
  datetime_column fdf "Application Date Submitted" →
  (∀ r ns, r ∈ rows fdf → cell r "Application Date Submitted" = Time ns →
           in_datetime64 ns) →
  ∃ (f1 : DataFrame) (t : list (value * nat)),
    monthly_apps fdf = Ok (f1, Some t)
    ∧ ∀ (i j : nat) (ki kj : value) (ni nj : nat) (r1 r2 : gmap string value)
        (a1 a2 : Z),
        t !! i = Some (ki, ni) → t !! j = Some (kj, nj) → (i < j)%nat →
        r1 ∈ rows fdf → r2 ∈ rows fdf →
        cell r1 "Application Date Submitted" = Time a1 →
        cell r2 "Application Date Submitted" = Time a2 →
        ki = Str (strftime_Ym a1) → kj = Str (strftime_Ym a2) →
        a1 < a2.
Proof.
  intros Ha Hdt Hrange. eexists _, _. split; [by apply monthly_apps_ok|].
  intros i j ki kj ni nj r1 r2 a1 a2 Hi Hj Hlt Hr1 Hr2 Hc1 Hc2 -> ->.
  set (M := (fun r => match application_month r with Some m => Str m | None => NaN end)
            <$> rows fdf) in *.
  assert (Hs : StronglySorted key_le (groupby_size M)).
  { unfold groupby_size. apply StronglySorted_fmap_key, sorted_labels_sorted. }
  assert (Hnd : NoDup (groupby_size M).*1).
  { unfold groupby_size. rewrite <- list_fmap_compose.
    change (fst ∘ _) with (@id value). rewrite list_fmap_id. apply sorted_labels_NoDup. }
  pose proof (StronglySorted_lookup _ _ _ _ _ _ Hs Hi Hj Hlt) as Hle.
  unfold key_le in Hle. cbn [fst] in Hle.
  destruct (decide (a1 < a2)) as [|Hge]; [done|]. exfalso.
  assert (Hle' : value_le (Str (strftime_Ym a2)) (Str (strftime_Ym a1))).
  { unfold value_le, value_leb. apply Is_true_true, strftime_Ym_mono;
      [by apply (Hrange r2)|by apply (Hrange r1)|lia]. }
  assert (Heq : Str (strftime_Ym a1) = Str (strftime_Ym a2))
    by (by apply (anti_symm value_le)).
  assert (i = j); [|lia].
  apply (NoDup_lookup _ i j (Str (strftime_Ym a1)) Hnd).
  - by rewrite list_lookup_fmap, Hi.
  - by rewrite list_lookup_fmap, Hj, Heq.
Qed.

Lemma timeline_chronological_witness :
  ∃ (f1 : DataFrame) (t : list (value * nat)),
    monthly_apps timeline_sample = Ok (f1, Some t)
    ∧ t !! 0%nat = Some (Str (strftime_Ym nov20), 2%nat)
    ∧ t !! 1%nat = Some (Str (strftime_Ym jan15), 1%nat)
    ∧ nov20 < jan15.
Proof.
  assert (Ha : "Application Date Submitted" ∈ columns timeline_sample) by compute_done.
  assert (Hdt : datetime_column timeline_sample "Application Date Submitted").
  { unfold datetime_column. compute_done. }
  assert (Hrange : ∀ r ns, r ∈ rows timeline_sample →
            cell r "Application Date Submitted" = Time ns → in_datetime64 ns).
  { intros r ns Hr Hc. cbn [rows timeline_sample] in Hr.
    repeat (apply elem_of_cons in Hr as [->|Hr];
            [vm_compute in Hc; try discriminate Hc; injection Hc as <-;
             unfold in_datetime64; vm_compute; by split|]).
    by apply elem_of_nil in Hr. }
  destruct (timeline_chronological timeline_sample Ha Hdt Hrange)
    as (f1 & t & Ht & Horder).
  assert (Ht' : snd <$> monthly_apps timeline_sample
                = Ok (Some [(Str (strftime_Ym nov20), 2%nat);
                            (Str (strftime_Ym jan15), 1%nat);
                            (Str (strftime_Ym feb01), 1%nat)]))
    by (vm_compute; reflexivity).
  rewrite Ht in Ht'. injection Ht' as ->.
  eexists _, _. split; [exact Ht|]. split; [reflexivity|]. split; [reflexivity|].
  apply (Horder 0%nat 1%nat (Str (strftime_Ym nov20)) (Str (strftime_Ym jan15))
           2%nat 1%nat
           (candidate 2022 NaN (Str "Decision") NaN NaT (Time nov20) (Time nov03))
           (candidate 2023 NaN (Str "Applicant") NaN NaT (Time jan15) (Time feb01)));
    [reflexivity|reflexivity|lia| | |reflexivity|reflexivity|reflexivity|reflexivity].
  - cbn [rows timeline_sample]. do 3 right. left.
  - cbn [rows timeline_sample]. left.
Defined.

(** * The range of the decision times *)






(** * The second conversion of the inquiry dates *)

Lemma coerce_datetimelike (p : string → option Z) (v : value) :
  is_datetimelike v → coerce p v = v.
Proof. by destruct v. Qed.

Lemma to_datetime_datetime_column (p : string → option Z) (df : DataFrame) (c : string) :
  datetime_column df c → to_datetime p (column df c) = column df c.
Proof.
  unfold datetime_column, to_datetime, column. intros Hall.
  rewrite <- list_fmap_compose. apply list_fmap_ext. intros i r Hr.
  apply coerce_datetimelike. rewrite Forall_forall in Hall.
  apply Hall. by eapply list_elem_of_lookup_2.
Qed.

Lemma list_filter_iff_elem {A} (Q1 Q2 : A → Prop) `{!∀ x, Decision (Q1 x)}
  `{!∀ x, Decision (Q2 x)} (l : list A) :
  (∀ x, x ∈ l → Q1 x ↔ Q2 x) → filter Q1 l = filter Q2 l.
Proof.
  induction l as [|x l IH]; intros Hiff; [done|].
  rewrite !filter_cons, IH by (intros y Hy; apply Hiff; by constructor).
  assert (Q1 x ↔ Q2 x) as Hx by (apply Hiff; constructor).
  destruct (decide (Q1 x)), (decide (Q2 x)); tauto.
Qed.

(** In the script the month table of the inquiries is computed from the
    inquiry dates as [load_data] converted them: the conversion of line
    188 finds timestamps and NaT only and changes no cell, so the table
    does not depend on what [format='mixed'] would read, and a text the
    loader turned into NaT is counted in no month. *)
Theorem inquiry_dates_parsed_once (P : DateParser) (fs : gmap string File)
  (selected_years : list value) (d f : DataFrame) :
  load_data P fs = Ok d →
  filtered_df d selected_years = Ok f →
  ∀ P' : DateParser,
    to_datetime (parse_mixed P') (column f "Inquiry Date Submitted")
    = column f "Inquiry Date Submitted"
    ∧ monthly_inquiries P' f = monthly_inquiries P f
    ∧ (∀ r, r ∈ rows f → cell r "Inquiry Date Submitted" = NaT →
            inquiry_month P' r = None).
Proof.
  intros Hd Hf P'.
  destruct (pipeline_date_columns P fs selected_years d f
              "Inquiry Date Submitted" Hd Hf) as [Hi Hdt]; [compute_done|].
  split; [by apply to_datetime_datetime_column|]. split.
  - destruct (decide ("Candidate Status" ∈ columns f)) as [Hs|Hs].
    + rewrite !monthly_inquiries_ok by done. f_equal.
      apply list_fmap_ext. intros _ m _. f_equal. unfold count_rows. f_equal.
      apply list_filter_iff_elem. intros r Hr.
      unfold datetime_column in Hdt. rewrite Forall_forall in Hdt.
      unfold inquiry_month. by rewrite !coerce_datetimelike by (by apply Hdt).
    + unfold monthly_inquiries. by rewrite !(getitem_KeyError _ _ Hs).
  - intros r Hr Hnat. unfold inquiry_month. by rewrite Hnat.
Qed.

Lemma inquiry_dates_parsed_once_witness :
  monthly_inquiries lenient_parser enrollment_2023
  = monthly_inquiries one_date_parser enrollment_2023.
Proof.
  assert (Hd : load_data one_date_parser enrollment_fs = Ok enrollment_loaded)
    by (vm_compute; reflexivity).
  assert (Hf : filtered_df enrollment_loaded [Int 2023] = Ok enrollment_2023)
    by (vm_compute; reflexivity).
  apply (inquiry_dates_parsed_once _ _ _ _ _ Hd Hf lenient_parser).
Defined.

(** * The columns the script reads *)




Lemma needs_getitem (df : DataFrame) (c : string) :
  needs [c] (columns df) (getitem df c).
Proof.
  unfold needs. destruct (decide (c ∈ columns df)) as [Hc|Hc].
  - rewrite decide_True; [by rewrite getitem_ok|].
    intros c' Hc'. by apply list_elem_of_singleton in Hc' as ->.
  - rewrite decide_False.
    + exists c. split; [constructor|]. split; [done|]. by apply getitem_KeyError.
    + intros Hsub. apply Hc, Hsub. constructor.
Qed.

















(** ** The script, statement by statement *)











Lemma script_outcome_example :
  script one_date_parser dates_only_fs [Int 2023] [] = Raise (KeyError "Entering Year")
  ∧ is_ok (load_data one_date_parser dates_only_fs).
Proof. split; vm_compute; done. Qed.

(** * The table behind the download *)







